(** * Genos: the MBTA transit client and the tool-calling agent

    A shallow embedding of [tools/mbta.py] and [agent.py].

    - Python values that cross a function boundary as dicts are kept as
      JSON-like values; a dict is an association list in insertion order.
    - Exceptions are explicit: a function that can raise returns [pyres].
    - The outside world is an argument: the HTTP response the upstream API
      gives, the clock, the scripted language model, the file system.
    - Library functions of Python whose behaviour is not part of this
      repository ([str.lower], [datetime.fromisoformat], [json.loads], ...)
      are the fields of the class [PyLib]. *)

From Stdlib Require Import ZArith List String Ascii DecimalString Sorted Lia.
From stdpp Require Import base gmap strings list.

Open Scope Z_scope.

(* ================================================================== *)
(** * Python values and exceptions                                     *)
(* ================================================================== *)

Module Py.

#[warnings="-register-all"] Inductive json : Type :=
| JNull
| JBool (b : bool)
| JInt (n : Z)
| JStr (s : string)
| JList (l : list json)
| JDict (d : list (string * json)).

(** A Python dict with string keys, in insertion order. *)
Abbreviation pydict := (list (string * json)).

Inductive exn : Type :=
| KeyError (key : string)
| IndexError
| TypeError
| ValueError
| JSONDecodeError
| APIError.

Inductive pyres (A : Type) : Type :=
| Ret (a : A)
| Raise (e : exn).
Arguments Ret {A} a.
Arguments Raise {A} e.

#[global] Instance pyres_ret : MRet pyres := fun A a => Ret a.
#[global] Instance pyres_bind : MBind pyres := fun A B f m =>
  match m with
  | Ret a => f a
  | Raise e => Raise e
  end.

(** ** Dicts *)

Fixpoint dict_get (k : string) (d : pydict) : option json :=
  match d with
  | [] => None
  | (k', v) :: d' => if String.eqb k k' then Some v else dict_get k d'
  end.

(** [k in d] *)
Definition dict_mem (k : string) (d : pydict) : bool :=
  match dict_get k d with Some _ => true | None => false end.

(** [d[k] = v]: an existing key keeps its position, a new one goes last. *)
Fixpoint dict_set (k : string) (v : json) (d : pydict) : pydict :=
  match d with
  | [] => [(k, v)]
  | (k', v') :: d' =>
      if String.eqb k k' then (k, v) :: d' else (k', v') :: dict_set k v d'
  end.

(** [d[k]] *)
Definition subscript (d : pydict) (k : string) : pyres json :=
  match dict_get k d with
  | Some v => Ret v
  | None => Raise (KeyError k)
  end.

(** [v[k]] for a value that has to be a dict. *)
Definition item (v : json) (k : string) : pyres json :=
  match v with
  | JDict d => subscript d k
  | _ => Raise TypeError
  end.

(** [v[0]]; the first byte of a str stands for its first character. *)
Definition first_item (v : json) : pyres json :=
  match v with
  | JList (x :: _) => Ret x
  | JList [] => Raise IndexError
  | JStr (String c _) => Ret (JStr (String c ""))
  | JStr EmptyString => Raise IndexError
  | JDict _ => Raise (KeyError "0")
  | _ => Raise TypeError
  end.

(** The items [for x in v] visits: the elements of a list, the keys of a
    dict, the characters of a str. *)
Definition iterate (v : json) : pyres (list json) :=
  match v with
  | JList l => Ret l
  | JDict d => Ret (map (fun e => JStr (fst e)) d)
  | JStr s => Ret (map (fun c => JStr (String c "")) (list_ascii_of_string s))
  | _ => Raise TypeError
  end.

(** A value used as a dict key.  Dicts are modelled with str keys: a list
    or a dict is unhashable in Python too, a number is not modelled. *)
Definition as_key (v : json) : pyres string :=
  match v with
  | JStr s => Ret s
  | _ => Raise TypeError
  end.

(** Truth value of a JSON value, as [if v:] and [not v] take it. *)
Definition truthy (v : json) : bool :=
  match v with
  | JNull => false
  | JBool b => b
  | JInt n => negb (n =? 0)
  | JStr s => negb (String.eqb s "")
  | JList l => match l with [] => false | _ => true end
  | JDict d => match d with [] => false | _ => true end
  end.

(** Truth value of an optional [str] argument or attribute. *)
Definition truthy_str (o : option string) : bool :=
  match o with
  | Some s => negb (String.eqb s "")
  | None => false
  end.

(** [a or b] on optional strings. *)
Definition or_str (a b : option string) : option string :=
  if truthy_str a then a else b.

Definition opt_json (o : option string) : json :=
  match o with Some s => JStr s | None => JNull end.

(** [v < n] and [v == n] against an [int] literal; [bool] is a subclass of
    [int], the other JSON types do not order against [int]. *)
Definition lt_int (v : json) (n : Z) : pyres bool :=
  match v with
  | JInt m => Ret (m <? n)
  | JBool b => Ret ((if b then 1 else 0) <? n)
  | _ => Raise TypeError
  end.

Definition eq_int (v : json) (n : Z) : bool :=
  match v with
  | JInt m => m =? n
  | JBool b => (if b then 1 else 0) =? n
  | _ => false
  end.

(** ** Strings *)

(** Decimal rendering of an [int], as [str(n)] and [f"{n}"] give it. *)
Definition dec (n : Z) : string := NilZero.string_of_int (Z.to_int n).

(** [needle in hay] on strings. *)
Fixpoint is_substring (needle hay : string) : bool :=
  String.prefix needle hay ||
  match hay with
  | EmptyString => false
  | String _ hay' => is_substring needle hay'
  end.

(** [s.replace(c, by)] for a one-character pattern [c]. *)
Fixpoint replace_char (c : ascii) (by_ : string) (s : string) : string :=
  match s with
  | EmptyString => EmptyString
  | String a s' =>
      if Ascii.eqb a c then by_ +:+ replace_char c by_ s'
      else String a (replace_char c by_ s')
  end.

(** ["\n".join(lines)] *)
Fixpoint join (sep : string) (lines : list string) : string :=
  match lines with
  | [] => ""
  | [l] => l
  | l :: rest => l +:+ sep +:+ join sep rest
  end.

(** ** Sorting

    [list.sort(key=...)] is stable; so is this insertion sort: an element
    is placed before the first element that does not have to precede it. *)

Section Sort.
Context {A : Type} (le : A -> A -> bool).

Fixpoint insert_sorted (x : A) (l : list A) : list A :=
  match l with
  | [] => [x]
  | y :: l' => if le x y then x :: y :: l' else y :: insert_sorted x l'
  end.

Fixpoint sort_by (l : list A) : list A :=
  match l with
  | [] => []
  | x :: l' => insert_sorted x (sort_by l')
  end.
End Sort.

(** ** Dates and times

    A [datetime] is its wall-clock reading in microseconds since the epoch
    of the proleptic calendar, with its UTC offset when it is aware. *)

Record datetime : Type := {
  wall_us : Z;
  utcoffset_us : option Z
}.

(** The quotient [num / den], for [den > 0], rounded to nearest with ties
    to even: what [round] gives on the exact quotient.  The source rounds
    a float quotient, which is [round_minutes] of the interface below. *)
Definition round_half_even (num den : Z) : Z :=
  let q := num / den in
  let r := num mod den in
  if 2 * r <? den then q
  else if den <? 2 * r then q + 1
  else if Z.even q then q else q + 1.

Definition two_digits (n : Z) : string :=
  if n <? 10 then "0" +:+ dec n else dec n.

(** [dt.strftime("%H:%M:%S")] *)
Definition strftime_HMS (dt : datetime) : string :=
  let tod := (wall_us dt / 1000000) mod 86400 in
  two_digits (tod / 3600) +:+ ":" +:+
  two_digits ((tod / 60) mod 60) +:+ ":" +:+
  two_digits (tod mod 60).

(** ** Library functions taken as an interface *)

Class PyLib : Type := {
  (** [s.lower()] *)
  str_lower : string -> string;
  (** [s.strip()] *)
  str_strip : string -> string;
  (** [str(v)], which an f-string applies to an interpolated value *)
  py_str : json -> string;
  (** [datetime.fromisoformat(s)]; [None] when it raises [ValueError] *)
  fromisoformat : string -> option datetime;
  (** [round(delta.total_seconds() / 60)] for a [timedelta] of the given
      number of microseconds; the seconds and the quotient are floats *)
  round_minutes : Z -> Z;
  (** [list(set(l))]: the elements of [l] once each, in hash order *)
  set_to_list : list string -> list string;
  (** [json.loads(s)]; [None] when it raises [JSONDecodeError] *)
  json_loads : string -> option json;
  (** [json.dumps(v, ensure_ascii=b)] *)
  json_dumps : bool -> json -> string
}.

End Py.
Export Py.

(* ================================================================== *)
(** * tools/mbta.py: the transit data client                           *)
(* ================================================================== *)

Module Mbta.

(** ** The upstream API

    [requests.get(...)] is an argument: the status code and the [data]
    member of the decoded body ([None] when the body has no such member, so
    that [data.get("data", [])] is the empty list).  The request itself
    (the [filter[...]] parameters, the API key) only selects what the
    upstream sends and is not modelled.  A resource is the record of the
    members the client reads; an optional member, read with [.get], is
    [None] when its key is absent.  A body of another shape, and a request
    that fails before any response, make the source raise; they are outside
    these types. *)

Record response (R : Type) : Type := {
  status_code : Z;
  json_data : option (list R)
}.
Arguments status_code {R} r.
Arguments json_data {R} r.

(** [data.get("data", [])] *)
Definition data_of {R : Type} (resp : response R) : list R :=
  default [] (json_data resp).

Record route_resource : Type := {
  route_res_id : string;
  route_long_name : string;
  route_color : option json
}.

Record stop_resource : Type := {
  stop_res_id : string;
  stop_name : string
}.

Record prediction_resource : Type := {
  attr_arrival_time : option string;    (* absent or null: [None] *)
  attr_departure_time : option string;  (* absent or null: [None] *)
  attr_direction_id : option Z;
  attr_status : option json;
  rel_route_data : option string        (* the related route's id, or null *)
}.

Record alert_resource : Type := {
  attr_header : option json;
  attr_description : option json;
  attr_effect : option json;
  attr_severity : option Z;
  attr_updated_at : option json;
  (* per informed entity: its route when it has the key *)
  attr_informed_entity : option (list (option string))
}.

Definition ROUTE_DIRECTIONS : list (string * list (Z * string)) :=
  [ ("Red", [(0, "Ashmont/Braintree"); (1, "Alewife")]);
    ("Orange", [(0, "Forest Hills"); (1, "Oak Grove")]);
    ("Blue", [(0, "Bowdoin"); (1, "Wonderland")]);
    ("Green-B", [(0, "Park Street"); (1, "Boston College")]);
    ("Green-C", [(0, "Park Street"); (1, "Cleveland Circle")]);
    ("Green-D", [(0, "Union Square"); (1, "Riverside")]);
    ("Green-E", [(0, "Medford/Tufts"); (1, "Heath Street")]) ].

(** [ROUTE_DIRECTIONS.get(route, {})] *)
Definition route_directions (route : string) : list (Z * string) :=
  default [] (snd <$> List.find (fun e => String.eqb (fst e) route) ROUTE_DIRECTIONS).

(** [.get(direction_id, f"方向{direction_id}")] on the inner table *)
Definition direction_name (route : string) (direction_id : Z) : string :=
  default ("方向" +:+ dec direction_id)
    (snd <$> List.find (fun e => fst e =? direction_id) (route_directions route)).

(** The inner table as it is handed out in a result; its [int] keys are
    written in decimal, as [json.dumps] does. *)
Definition directions_json (route : string) : json :=
  JDict (map (fun e => (dec (fst e), JStr (snd e))) (route_directions route)).

(** [{"error": f"API 错误: {response.status_code}"}] *)
Definition api_error (status : Z) : string * json :=
  ("error", JStr ("API 错误: " +:+ dec status)).

(** ** The records the client builds

    Each is a dict literal of the source with a fixed set of keys; the
    [_dict] function next to its use gives the dict. *)

Record alert : Type := {
  header : json;
  description : json;
  effect : json;
  severity : Z;
  affected_routes : list string;
  updated_at : json
}.

Record stop : Type := {
  s_id : string;
  s_name : string
}.

Record prediction : Type := {
  route : string;
  direction : string;
  minutes : Z;
  time : string;
  status : json
}.

Definition prediction_dict (p : prediction) : json :=
  JDict [ ("route", JStr (route p));
          ("direction", JStr (direction p));
          ("minutes", JInt (minutes p));
          ("time", JStr (time p));
          ("status", status p) ].

Section Client.
Context `{PyLib}.

(** ** get_alerts *)

Definition alert_dict (a : alert) : json :=
  JDict [ ("header", header a);
          ("description", description a);
          ("effect", effect a);
          ("severity", JInt (severity a));
          ("affected_routes", JList (map JStr (affected_routes a)));
          ("updated_at", updated_at a) ].

(** The body of the loop over [alerts_data]. *)
Definition alert_of (res : alert_resource) : alert :=
  let affected := omap id (default [] (attr_informed_entity res)) in
  {| header := default (JStr "") (attr_header res);
     description := default (JStr "") (attr_description res);
     effect := default (JStr "") (attr_effect res);
     severity := default 0 (attr_severity res);
     affected_routes := set_to_list affected;
     updated_at := default (JStr "") (attr_updated_at res) |}.

(** [enumerate(alerts[:5], 1)] and the line built for each. *)
Fixpoint alert_lines (i : Z) (alerts : list alert) : list string :=
  match alerts with
  | [] => []
  | a :: rest =>
      ("  " +:+ dec i +:+ ". [" +:+ py_str (effect a) +:+ "] " +:+ py_str (header a))
      :: alert_lines (i + 1) rest
  end.

Definition get_alerts (route_id : option string)
    (resp : response alert_resource) : pydict :=
  if negb (status_code resp =? 200) then [ api_error (status_code resp) ]
  else
    let alerts := map alert_of (data_of resp) in
    (* sort(key=severity, reverse=True) *)
    let alerts := sort_by (fun a b => severity b <=? severity a) alerts in
    match alerts with
    | [] =>
        [ ("route_filter", opt_json route_id);
          ("has_alerts", JBool false);
          ("alerts", JList []);
          ("message", JStr ("✅ " +:+
             (if truthy_str route_id then "该线路" else "地铁系统") +:+
             "目前没有服务警报，运营正常。")) ]
    | _ =>
        let lines :=
          ("⚠️ 发现 " +:+ dec (Z.of_nat (length alerts)) +:+ " 条服务警报:")
          :: alert_lines 1 (take 5 alerts) in
        [ ("route_filter", opt_json route_id);
          ("has_alerts", JBool true);
          ("alert_count", JInt (Z.of_nat (length alerts)));
          ("alerts", JList (map alert_dict (take 10 alerts)));
          ("message", JStr (join (String "010" "") lines)) ]
    end.

(** ** get_routes *)

Definition route_dict (route : route_resource) : json :=
  JDict [ ("id", JStr (route_res_id route));
          ("name", JStr (route_long_name route));
          ("color", default (JStr "") (route_color route));
          ("directions", directions_json (route_res_id route)) ].

Definition get_routes (route_type : string)
    (resp : response route_resource) : pydict :=
  if negb (status_code resp =? 200) then [ api_error (status_code resp) ]
  else [ ("routes", JList (map route_dict (data_of resp))) ].

(** ** get_stops and search_stops *)

Definition stop_dict (s : stop) : json :=
  JDict [ ("id", JStr (s_id s)); ("name", JStr (s_name s)) ].

(** One iteration of the loop of [get_stops] over the state
    [(seen, stops)]. *)
Definition stops_step (st : gset string * list stop) (res : stop_resource)
    : gset string * list stop :=
  let name := stop_name res in
  if bool_decide (name ∈ st.1) then st
  else ({[ name ]} ∪ st.1, st.2 ++ [ {| s_id := stop_res_id res; s_name := name |} ]).

Definition get_stops (route_id : string)
    (resp : response stop_resource) : pydict :=
  if negb (status_code resp =? 200) then [ api_error (status_code resp) ]
  else
    let stops := (fold_left stops_step (data_of resp) (∅, [])).2 in
    [ ("route", JStr route_id);
      ("directions", directions_json route_id);
      ("stops", JList (map stop_dict stops)) ].

(** One iteration of the loop of [search_stops] over [(seen, matches)]. *)
Definition search_step (query_lower : string)
    (st : gset string * list stop) (res : stop_resource)
    : gset string * list stop :=
  let name := stop_name res in
  if negb (bool_decide (name ∈ st.1)) && is_substring query_lower (str_lower name)
  then ({[ name ]} ∪ st.1, st.2 ++ [ {| s_id := stop_res_id res; s_name := name |} ])
  else st.

Definition search_matches (query : string) (data : list stop_resource)
    : list stop :=
  let query_lower := str_strip (str_lower query) in
  (fold_left (search_step query_lower) data (∅, [])).2.

Definition search_stops (query : string)
    (resp : response stop_resource) : pydict :=
  if negb (status_code resp =? 200) then [ api_error (status_code resp) ]
  else
    let matches := search_matches query (data_of resp) in
    [ ("query", JStr query);
      ("count", JInt (Z.of_nat (length matches)));
      ("results", JList (map stop_dict matches)) ].

(** ** get_predictions *)

(** One loop iteration of [get_predictions]: the entry a record gives, or
    [None] where the source says [continue]. *)
Definition prediction_of (now : Z) (pred : prediction_resource)
    : pyres (option prediction) :=
  let arrival_str := or_str (attr_arrival_time pred) (attr_departure_time pred) in
  if negb (truthy_str arrival_str) then Ret None
  else
    match fromisoformat (replace_char "Z" "+00:00" (default "" arrival_str)) with
    | None => Raise ValueError
    | Some arrival_time =>
        (* [arrival_time < now], [now] being aware *)
        match utcoffset_us arrival_time with
        | None => Raise TypeError
        | Some offset =>
            let instant := wall_us arrival_time - offset in
            if instant <? now then Ret None
            else
              let route_name := default "未知" (rel_route_data pred) in
              let direction_id := default 0 (attr_direction_id pred) in
              Ret (Some
                {| route := route_name;
                   direction := direction_name route_name direction_id;
                   minutes := round_minutes (instant - now);
                   time := strftime_HMS arrival_time;
                   status := default (JStr "") (attr_status pred) |})
        end
    end.

(** The loop over [predictions_data], appending to [predictions]. *)
Fixpoint collect_predictions (now : Z) (data : list prediction_resource)
    (predictions : list prediction) : pyres (list prediction) :=
  match data with
  | [] => Ret predictions
  | pred :: rest =>
      entry ← prediction_of now pred;
      collect_predictions now rest
        (match entry with
         | Some p => predictions ++ [p]
         | None => predictions
         end)
  end.

(** The test of the list comprehension that filters by direction. *)
Definition direction_matches (direction_lower : string) (p : prediction) : bool :=
  is_substring direction_lower (str_lower (direction p)).

Definition get_predictions (stop_id : string) (route_id direction : option string)
    (resp : response prediction_resource) (now : Z) : pyres pydict :=
  if negb (status_code resp =? 200)
  then Ret [ api_error (status_code resp); ("stop_id", JStr stop_id) ]
  else
    let predictions_data := data_of resp in
    match predictions_data with
    | [] =>
        Ret [ ("stop_id", JStr stop_id);
              ("predictions", JList []);
              ("message", JStr "当前没有预测数据，可能不在运营时间") ]
    | _ =>
        predictions ← collect_predictions now predictions_data [];
        let predictions :=
          sort_by (fun a b => minutes a <=? minutes b) predictions in
        let predictions :=
          if truthy_str direction
          then List.filter (direction_matches (str_lower (default "" direction)))
                 predictions
          else predictions in
        Ret [ ("stop_id", JStr stop_id);
              ("route_filter", opt_json route_id);
              ("direction_filter", opt_json direction);
              ("predictions", JList (map prediction_dict (take 10 predictions))) ]
    end.

(** ** get_next_train *)

(** [get_next_train] from the point where [result] is bound. *)
Definition next_train_of (stop_id : string) (route_id direction : option string)
    (result : pydict) : pyres pydict :=
  if dict_mem "error" result then Ret result
  else
    predictions ← subscript result "predictions";
    if negb (truthy predictions) then
      Ret [ ("stop_id", JStr stop_id);
            ("route_filter", opt_json route_id);
            ("direction_filter", opt_json direction);
            ("has_data", JBool false);
            ("predictions", JList []);
            ("message", JStr "⚠️ 当前没有列车预测数据。可能原因：1) 线路停运或维修中 2) 不在运营时间 3) 服务中断。请查看 MBTA 官方警报获取详情。") ]
    else
      next_train ← first_item predictions;
      minutes ← item next_train "minutes";
      soon ← lt_int minutes 1;
      let time_str :=
        if (soon : bool) then "即将到达"
        else if eq_int minutes 1 then "1 分钟后到达"
        else py_str minutes +:+ " 分钟后到达" in
      route ← item next_train "route";
      direction ← item next_train "direction";
      let message :=
        py_str route +:+ " 线下一班车 " +:+ time_str +:+ "，方向 " +:+ py_str direction in
      time ← item next_train "time";
      Ret [ ("stop_id", JStr stop_id);
            ("route", route);
            ("direction", direction);
            ("minutes", minutes);
            ("time", time);
            ("has_data", JBool true);
            ("message", JStr message) ].

Definition get_next_train (stop_id : string) (route_id direction : option string)
    (resp : response prediction_resource) (now : Z) : pyres pydict :=
  result ← get_predictions stop_id route_id direction resp now;
  next_train_of stop_id route_id direction result.

(** ** get_both_directions *)

(** The grouping loop: the first entry of each direction is kept. *)
Fixpoint group_directions (preds : list json) (directions : pydict)
    : pyres pydict :=
  match preds with
  | [] => Ret directions
  | pred :: rest =>
      dir_name ← item pred "direction" ≫= as_key;
      if negb (dict_mem dir_name directions) then
        minutes ← item pred "minutes";
        time ← item pred "time";
        group_directions rest
          (dict_set dir_name (JDict [ ("minutes", minutes); ("time", time) ])
             directions)
      else group_directions rest directions
  end.

(** The loop over [directions.items()] that builds the message lines. *)
Fixpoint direction_lines (directions : pydict) : pyres (list string) :=
  match directions with
  | [] => Ret []
  | (dir_name, info) :: rest =>
      mins ← item info "minutes";
      soon ← lt_int mins 1;
      let line :=
        if (soon : bool) then "  → " +:+ dir_name +:+ ": 即将到达"
        else "  → " +:+ dir_name +:+ ": " +:+ py_str mins +:+ " 分钟后" in
      lines ← direction_lines rest;
      Ret (line :: lines)
  end.

(** [get_both_directions] from the point where [result] is bound. *)
Definition both_directions_of (stop_id route_id : string) (result : pydict)
    : pyres pydict :=
  if dict_mem "error" result then Ret result
  else
    predictions ← subscript result "predictions";
    if negb (truthy predictions) then
      Ret [ ("stop_id", JStr stop_id);
            ("route", JStr route_id);
            ("has_data", JBool false);
            ("directions", JDict []);
            ("message", JStr ("⚠️ " +:+ route_id +:+
               " 线在该站当前没有列车数据。可能原因：线路停运、维修中、或不在运营时间。")) ]
    else
      preds ← iterate predictions;
      directions ← group_directions preds [];
      lines ← direction_lines directions;
      Ret [ ("stop_id", JStr stop_id);
            ("route", JStr route_id);
            ("has_data", JBool true);
            ("directions", JDict directions);
            ("message", JStr (join (String "010" "") ((route_id +:+ " 线:") :: lines))) ].

Definition get_both_directions (stop_id route_id : string)
    (resp : response prediction_resource) (now : Z) : pyres pydict :=
  result ← get_predictions stop_id (Some route_id) None resp now;
  both_directions_of stop_id route_id result.

End Client.
End Mbta.

(* ================================================================== *)
(** * agent.py: user memory, tool registry and the chat loop           *)
(* ================================================================== *)

Module Agent.

(** ** Data *)

(** The document of [memory/{user_id}.json]; [preferences] is the dict
    that [set_preference] tests and updates by key. *)
Record UserMemory : Type := {
  um_user_id : string;
  created_at : string;
  preferences : gmap string json;
  facts : list string;
  conversation_count : Z;
  last_conversation : option string
}.

Record tool_call : Type := {
  tc_id : string;          (* [tool_call.id] *)
  tc_name : string;        (* [tool_call.function.name] *)
  tc_arguments : string    (* [tool_call.function.arguments], JSON text *)
}.

(** [response.choices[0].message]; [tool_calls] is [[]] when the model
    asks for no tool (the API gives [None], which is as false). *)
Record assistant_message : Type := {
  content : option string;
  tool_calls : list tool_call
}.

(** An entry of [self.messages]. *)
Inductive message : Type :=
| System (text : string)
| User (text : string)
| AssistantObject (m : assistant_message)   (* the API object, appended as it is *)
| Assistant (text : option string)
| Tool (tool_call_id : string) (text : string).

(** What the [try] block of [_call_tool] comes to: the tool returned a
    value that [json.dumps] accepts, or the call or the serialisation
    raised an [Exception] [e], of which [str(e)] is kept. *)
Inductive tool_result : Type :=
| Returns (result : json)
| Raises (str_e : string).

(** A registered function: the text by which the interpreter names it in
    an error message (for a function, its module and qualified name
    followed by [()], as in [tools.mbta.get_routes()]), and what a call
    with keyword arguments comes to. *)
Record tool : Type := {
  callee : string;
  call :> pydict -> tool_result
}.

(** The agent object together with the world it acts on. *)
Record state : Type := {
  user_id : string;
  tools : gmap string tool;
  tool_schemas : list json;
  user_memory : UserMemory;
  messages : list message;
  system_prompt : string;
  (** the files under [MEMORY_DIR], by path *)
  disk : gmap string UserMemory;
  (** how many times a memory file has been written *)
  saves : nat;
  (** the calls of [_call_tool] so far, oldest first *)
  dispatched : list (string * json)
}.

Definition with_user_memory (um : UserMemory) (st : state) : state :=
  {| user_id := user_id st; tools := tools st; tool_schemas := tool_schemas st;
     user_memory := um; messages := messages st;
     system_prompt := system_prompt st; disk := disk st; saves := saves st;
     dispatched := dispatched st |}.

Definition with_messages (ms : list message) (st : state) : state :=
  {| user_id := user_id st; tools := tools st; tool_schemas := tool_schemas st;
     user_memory := user_memory st; messages := ms;
     system_prompt := system_prompt st; disk := disk st; saves := saves st;
     dispatched := dispatched st |}.

Definition with_write (path : string) (doc : UserMemory) (st : state) : state :=
  {| user_id := user_id st; tools := tools st; tool_schemas := tool_schemas st;
     user_memory := user_memory st; messages := messages st;
     system_prompt := system_prompt st; disk := <[path := doc]> (disk st);
     saves := S (saves st); dispatched := dispatched st |}.

Definition with_dispatch (name : string) (arguments : json) (st : state) : state :=
  {| user_id := user_id st; tools := tools st; tool_schemas := tool_schemas st;
     user_memory := user_memory st; messages := messages st;
     system_prompt := system_prompt st; disk := disk st; saves := saves st;
     dispatched := dispatched st ++ [(name, arguments)] |}.

Definition with_registered (name : string) (func : tool) (schema : json)
    (st : state) : state :=
  {| user_id := user_id st; tools := <[name := func]> (tools st);
     tool_schemas := tool_schemas st ++ [schema];
     user_memory := user_memory st; messages := messages st;
     system_prompt := system_prompt st; disk := disk st; saves := saves st;
     dispatched := dispatched st |}.

(** [self.messages.append(m)] *)
Definition append_message (m : message) (st : state) : state :=
  with_messages (messages st ++ [m]) st.

(** ** Long-term memory *)

Definition MEMORY_DIR : string := "memory".

(** [os.path.join(dir, file)] on POSIX, for a [dir] without a final slash. *)
Definition os_path_join (dir file : string) : string :=
  if String.prefix "/" file then file else dir +:+ "/" +:+ file.

Definition _get_memory_path (st : state) : string :=
  os_path_join MEMORY_DIR (user_id st +:+ ".json").

(** The seven preference keys of a new user's document. *)
Definition preference_keys : list string :=
  [ "language"; "home_station"; "home_station_name"; "work_station";
    "work_station_name"; "preferred_line"; "preferred_direction" ].

Definition default_preferences : gmap string json :=
  list_to_map (map (fun k => (k, JNull)) preference_keys).

(** [_load_memory], with [now] for [datetime.now().isoformat()]. *)
Definition _load_memory (now : string) (st : state) : UserMemory :=
  match disk st !! _get_memory_path st with
  | Some doc => doc
  | None =>
      {| um_user_id := user_id st;
         created_at := now;
         preferences := default_preferences;
         facts := [];
         conversation_count := 0;
         last_conversation := None |}
  end.

(** [_save_memory] on a store that takes the write: [open] and
    [json.dump] raising is not modelled. *)
Definition _save_memory (st : state) : state :=
  with_write (_get_memory_path st) (user_memory st) st.

Definition with_preference (key : string) (value : json) (um : UserMemory)
    : UserMemory :=
  {| um_user_id := um_user_id um; created_at := created_at um;
     preferences := <[key := value]> (preferences um);
     facts := facts um; conversation_count := conversation_count um;
     last_conversation := last_conversation um |}.

Definition with_fact (fact : string) (um : UserMemory) : UserMemory :=
  {| um_user_id := um_user_id um; created_at := created_at um;
     preferences := preferences um;
     facts := facts um ++ [fact]; conversation_count := conversation_count um;
     last_conversation := last_conversation um |}.

Definition with_conversation (now : string) (um : UserMemory) : UserMemory :=
  {| um_user_id := um_user_id um; created_at := created_at um;
     preferences := preferences um;
     facts := facts um; conversation_count := conversation_count um + 1;
     last_conversation := Some now |}.

Definition set_preference (key : string) (value : json) (st : state)
    : bool * state :=
  if bool_decide (is_Some (preferences (user_memory st) !! key)) then
    let st := with_user_memory (with_preference key value (user_memory st)) st in
    (true, _save_memory st)
  else (false, st).

Definition get_preference (key : string) (st : state) : option json :=
  preferences (user_memory st) !! key.

Definition add_fact (fact : string) (st : state) : state :=
  if negb (bool_decide (fact ∈ facts (user_memory st))) then
    _save_memory (with_user_memory (with_fact fact (user_memory st)) st)
  else st.

(** ** Tools *)

Definition register_tool (name : string) (func : tool) (schema : json)
    (st : state) : state :=
  with_registered name func schema st.

(** [type(v).__name__] *)
Definition type_name (v : json) : string :=
  match v with
  | JNull => "NoneType"
  | JBool _ => "bool"
  | JInt _ => "int"
  | JStr _ => "str"
  | JList _ => "list"
  | JDict _ => "dict"
  end.

(** [str(e)] of the [TypeError] that the call [func( **arguments)] raises
    when [arguments] is not a mapping. *)
Definition not_a_mapping (func : tool) (arguments : json) : string :=
  callee func +:+ " argument after ** must be a mapping, not " +:+
  type_name arguments.

Section Chat.
Context `{PyLib}.

Definition _call_tool (name : string) (arguments : json) (st : state) : string :=
  match tools st !! name with
  | None => json_dumps true (JDict [ ("error", JStr ("未知工具: " +:+ name)) ])
  | Some func =>
      let outcome :=
        match arguments with
        | JDict kwargs => func kwargs
        | _ => Raises (not_a_mapping func arguments)
        end in
      match outcome with
      | Returns result => json_dumps false result
      | Raises str_e => json_dumps true (JDict [ ("error", JStr str_e) ])
      end
  end.

(** ** The chat loop

    The language model is the list of the messages it is going to answer
    with, one per request; a request past the end of the list raises. *)

(** The [for tool_call in assistant_message.tool_calls] loop. *)
Fixpoint run_tool_calls (calls : list tool_call) (st : state)
    : pyres unit * state :=
  match calls with
  | [] => (Ret (), st)
  | tool_call :: rest =>
      let func_name := tc_name tool_call in
      match json_loads (tc_arguments tool_call) with
      | None => (Raise JSONDecodeError, st)
      | Some func_args =>
          let result := _call_tool func_name func_args st in
          let st := with_dispatch func_name func_args st in
          run_tool_calls rest (append_message (Tool (tc_id tool_call) result) st)
      end
  end.

(** The [while assistant_message.tool_calls] loop; [model] holds the
    answers to the requests still to come. *)
Fixpoint tool_loop (model : list assistant_message)
    (assistant_message : assistant_message) (st : state)
    : pyres Agent.assistant_message * state :=
  match tool_calls assistant_message with
  | [] => (Ret assistant_message, st)
  | calls =>
      let st := append_message (AssistantObject assistant_message) st in
      match run_tool_calls calls st with
      | (Raise e, st) => (Raise e, st)
      | (Ret _, st) =>
          match model with
          | [] => (Raise APIError, st)
          | next :: model' => tool_loop model' next st
          end
      end
  end.

(** [chat], with [now] for [datetime.now().isoformat()]. *)
Definition chat (user_message : string) (now : string)
    (model : list assistant_message) (st : state)
    : pyres (option string) * state :=
  let st := append_message (User user_message) st in
  match model with
  | [] => (Raise APIError, st)
  | first :: model' =>
      match tool_loop model' first st with
      | (Raise e, st) => (Raise e, st)
      | (Ret final, st) =>
          let st := append_message (Assistant (content final)) st in
          let st := with_user_memory (with_conversation now (user_memory st)) st in
          let st := _save_memory st in
          (Ret (content final), st)
      end
  end.

Definition clear_history (st : state) : state :=
  with_messages [ System (system_prompt st) ] st.

End Chat.
End Agent.

(* ================================================================== *)
(** * An instance of the library interface, for the examples           *)
(* ================================================================== *)

(** The functions below agree with Python's on the inputs the examples
    use: ASCII text, timestamps in the form the upstream API sends them
    ([2024-01-15T10:03:00-05:00]), waits of a few minutes (for which the
    float quotient rounds as the exact one), values without nested
    quotes. *)

Module Fixture.

Definition ascii_lower_char (c : ascii) : ascii :=
  let n := nat_of_ascii c in
  if ((65 <=? n) && (n <=? 90))%nat then ascii_of_nat (n + 32) else c.

Fixpoint ascii_lower (s : string) : string :=
  match s with
  | EmptyString => EmptyString
  | String c s' => String (ascii_lower_char c) (ascii_lower s')
  end.

Definition is_space (c : ascii) : bool :=
  let n := nat_of_ascii c in
  ((n =? 32) || ((9 <=? n) && (n <=? 13)))%nat.

Fixpoint lstrip (l : list ascii) : list ascii :=
  match l with
  | c :: l' => if is_space c then lstrip l' else l
  | [] => []
  end.

Definition ascii_strip (s : string) : string :=
  string_of_list_ascii
    (rev (lstrip (rev (lstrip (list_ascii_of_string s))))).

Definition digit_value (c : ascii) : option Z :=
  let n := nat_of_ascii c in
  if ((48 <=? n) && (n <=? 57))%nat then Some (Z.of_nat n - 48) else None.

(** The value of a run of decimal digits. *)
Fixpoint digits_value (acc : Z) (l : list ascii) : option Z :=
  match l with
  | [] => Some acc
  | c :: l' =>
      match digit_value c with
      | Some d => digits_value (10 * acc + d) l'
      | None => None
      end
  end.

Definition number_at (start len : nat) (l : list ascii) : option Z :=
  let field := take len (drop start l) in
  if (length field =? len)%nat then digits_value 0 field else None.

Definition char_at (i : nat) (c : ascii) (l : list ascii) : bool :=
  match l !! i with
  | Some c' => Ascii.eqb c c'
  | None => false
  end.

(** Days from 1970-01-01 to the given civil date. *)
Definition days_from_civil (y m d : Z) : Z :=
  let y := if m <=? 2 then y - 1 else y in
  let era := y / 400 in
  let yoe := y - era * 400 in
  let doy := (153 * (if 2 <? m then m - 3 else m + 9) + 2) / 5 + d - 1 in
  let doe := yoe * 365 + yoe / 4 - yoe / 100 + doy in
  era * 146097 + doe - 719468.

(** [YYYY-MM-DDTHH:MM:SS], alone (a naive datetime) or followed by an
    offset [+HH:MM] or [-HH:MM]. *)
Definition iso_parse (s : string) : option datetime :=
  let l := list_ascii_of_string s in
  if char_at 4 "-" l && char_at 7 "-" l && char_at 10 "T" l
     && char_at 13 ":" l && char_at 16 ":" l then
    y ← number_at 0 4 l; mo ← number_at 5 2 l; d ← number_at 8 2 l;
    h ← number_at 11 2 l; mi ← number_at 14 2 l; sec ← number_at 17 2 l;
    let wall :=
      (days_from_civil y mo d * 86400 + h * 3600 + mi * 60 + sec) * 1000000 in
    if (length l =? 19)%nat then
      Some {| wall_us := wall; utcoffset_us := None |}
    else if ((length l =? 25)%nat && char_at 22 ":" l)%bool then
      oh ← number_at 20 2 l; om ← number_at 23 2 l;
      let offset := (oh * 3600 + om * 60) * 1000000 in
      if char_at 19 "+" l then
        Some {| wall_us := wall; utcoffset_us := Some offset |}
      else if char_at 19 "-" l then
        Some {| wall_us := wall; utcoffset_us := Some (- offset) |}
      else None
    else None
  else None.

(** The elements once each, in the order of their first occurrence. *)
Fixpoint dedup_first (seen : list string) (l : list string) : list string :=
  match l with
  | [] => []
  | x :: l' =>
      if existsb (String.eqb x) seen then dedup_first seen l'
      else x :: dedup_first (x :: seen) l'
  end.

Definition quote : string := String (ascii_of_nat 34) "".

Fixpoint render (v : json) : string :=
  match v with
  | JNull => "null"
  | JBool b => if b then "true" else "false"
  | JInt n => dec n
  | JStr s => quote +:+ s +:+ quote
  | JList l => "[" +:+ join ", " (map render l) +:+ "]"
  | JDict d =>
      "{" +:+ join ", " (map (fun e => quote +:+ fst e +:+ quote +:+ ": " +:+ render (snd e)) d)
      +:+ "}"
  end.

Definition show (v : json) : string :=
  match v with
  | JNull => "None"
  | JBool b => if b then "True" else "False"
  | JInt n => dec n
  | JStr s => s
  | _ => render v
  end.

(** The argument texts of the examples: an empty object. *)
Definition read (s : string) : option json :=
  if String.eqb (ascii_strip s) "{}" then Some (JDict []) else None.

#[global] Instance lib : PyLib := {
  str_lower := ascii_lower;
  str_strip := ascii_strip;
  py_str := show;
  fromisoformat := iso_parse;
  round_minutes := fun d => round_half_even d 60000000;
  set_to_list := dedup_first [];
  json_loads := read;
  json_dumps := fun _ => render
}.

End Fixture.


(* ================================================================== *)
(** * Scenarios                                                        *)
(* ================================================================== *)

Module Scenario.
Import Mbta Agent.

(** Harvard, Red Line, queried at 2024-01-15T15:00:00Z: a train to
    Ashmont/Braintree at 10:07:00 local time and, by its departure time, a
    train to Alewife at 10:03:20. *)
Definition harvard_now : Z := 1705330800000000.

Definition harvard_response : response prediction_resource :=
  {| status_code := 200;
     json_data := Some
       [ {| attr_arrival_time := Some "2024-01-15T10:07:00-05:00";
            attr_departure_time := None;
            attr_direction_id := Some 0;
            attr_status := None;
            rel_route_data := Some "Red" |};
         {| attr_arrival_time := None;
            attr_departure_time := Some "2024-01-15T10:03:20-05:00";
            attr_direction_id := Some 1;
            attr_status := Some JNull;
            rel_route_data := Some "Red" |} ] |}.

Definition harvard_predictions : pydict :=
  Eval vm_compute in
    match get_predictions "place-harsq" (Some "Red") None
            harvard_response harvard_now with
    | Ret r => r
    | Raise _ => []
    end.

(** The upstream API fails. *)
Definition failed_response : response prediction_resource :=
  {| status_code := 500; json_data := None |}.

Definition failed_predictions : pydict :=
  [ ("error", JStr "API 错误: 500"); ("stop_id", JStr "place-harsq") ].

(** A success status other than 200. *)
Definition no_content_response : response route_resource :=
  {| status_code := 204; json_data := None |}.

(** Two platforms of Park Street. *)
Definition park_response : response stop_resource :=
  {| status_code := 200;
     json_data := Some
       [ {| stop_res_id := "place-pktrm"; stop_name := "Park Street" |};
         {| stop_res_id := "70075"; stop_name := "Park Street" |} ] |}.

(** A new user with one registered tool. *)
Definition routes_tool : tool :=
  {| callee := "tools.mbta.get_routes()";
     call := fun _ => Returns (JDict [ ("routes", JList []) ]) |}.

Definition alice : state :=
  {| user_id := "alice";
     tools := {[ "get_routes" := routes_tool ]};
     tool_schemas := [];
     user_memory :=
       {| um_user_id := "alice";
          created_at := "2024-01-15T10:00:00";
          preferences := default_preferences;
          facts := [];
          conversation_count := 0;
          last_conversation := None |};
     messages := [ System "You are Genos, a helpful Boston subway assistant." ];
     system_prompt := "You are Genos, a helpful Boston subway assistant.";
     disk := ∅;
     saves := 0;
     dispatched := [] |}.

Definition call_routes (call_id arguments : string) : assistant_message :=
  {| content := None;
     tool_calls :=
       [ {| tc_id := call_id; tc_name := "get_routes";
            tc_arguments := arguments |} ] |}.

Definition answer : assistant_message :=
  {| content := Some "Seven lines are running."; tool_calls := [] |}.

(** The model asks for a tool twice, then answers. *)
Definition two_calls : list assistant_message :=
  [ call_routes "call_1" "{}"; call_routes "call_2" "{}"; answer ].

(** The model sends an argument text that is cut short. *)
Definition cut_short : list assistant_message :=
  [ call_routes "call_1" "{"; answer ].

End Scenario.

(* ================================================================== *)
(** * What the claims speak of                                         *)
(* ================================================================== *)

Module Spec.
Import Mbta.

Section Predictions.
Context `{PyLib}.

(** The timestamp text a record is placed by: its arrival time, or its
    departure time when the arrival time is absent (or empty). *)
Definition chosen_time (pred : prediction_resource) (s : string) : Prop :=
  s ≠ "" ∧
  (attr_arrival_time pred = Some s ∨
   ((attr_arrival_time pred = None ∨ attr_arrival_time pred = Some "") ∧
    attr_departure_time pred = Some s)).

(** [p] is the entry of the record [pred] for a query made at [now]: the
    chosen time is not before [now] and the wait is the rounded number of
    minutes between the two. *)
Definition entry_from (now : Z) (pred : prediction_resource) (p : prediction)
    : Prop :=
  ∃ s dt offset,
    chosen_time pred s ∧
    fromisoformat (replace_char "Z" "+00:00" s) = Some dt ∧
    utcoffset_us dt = Some offset ∧
    now ≤ wall_us dt - offset ∧
    minutes p = round_minutes (wall_us dt - offset - now) ∧
    time p = strftime_HMS dt.





(** What a prediction list returned for [data] at [now] satisfies. *)
Definition predictions_ok (now : Z) (direction : option string)
    (data : list prediction_resource) (preds : list prediction) : Prop :=
  (length preds ≤ 10)%nat ∧
  StronglySorted (λ a b, minutes a ≤ minutes b) preds ∧
  Forall (λ p, ∃ pred, pred ∈ data ∧ entry_from now pred p) preds ∧
  (∀ d, direction = Some d → d ≠ "" →
     Forall (λ p, is_substring (str_lower d) (str_lower (Mbta.direction p)) = true)
       preds).

End Predictions.

(** An operation of outcome [outcome] reports an error exactly when the
    upstream [status] is not 200, and what it then returns is [err]. *)
Definition reports_error (status : Z) (outcome : pyres pydict) (err : pydict)
    : Prop :=
  ((∃ r, outcome = Ret r ∧ dict_mem "error" r = true) ↔ status ≠ 200) ∧
  (status ≠ 200 → outcome = Ret err).

(** The first entry of a direction in a prediction list. *)
Definition first_of (d : string) (preds : list prediction) : option prediction :=
  List.find (λ p, String.eqb (direction p) d) preds.

(** What [get_both_directions] stores for an entry. *)
Definition direction_info (p : prediction) : json :=
  JDict [ ("minutes", JInt (minutes p)); ("time", JStr (time p)) ].

(** The id of the first upstream stop that has the given name. *)
Definition first_id (name : string) (data : list stop_resource) : option string :=
  stop_res_id <$> List.find (λ r, String.eqb (stop_name r) name) data.

(** Both loops keep the first stop of each name among those whose name
    passes a test; [get_stops] lets every name pass. *)
Definition dedup_step (keep : string → bool)
    (st : gset string * list stop) (res : stop_resource)
    : gset string * list stop :=
  if negb (bool_decide (stop_name res ∈ st.1)) && keep (stop_name res)
  then ({[ stop_name res ]} ∪ st.1,
        st.2 ++ [ {| s_id := stop_res_id res; s_name := stop_name res |} ])
  else st.

(** The loop invariant after the records [done]. *)
Definition dedup_inv (keep : string → bool) (done : list stop_resource)
    (st : gset string * list stop) : Prop :=
  (∀ n, n ∈ st.1 ↔ n ∈ map s_name st.2) ∧
  NoDup (map s_name st.2) ∧
  (∀ s, s ∈ st.2 ↔
        keep (s_name s) = true ∧ first_id (s_name s) done = Some (s_id s)).

(** A memory document has the preference keys of a new user's document. *)
Definition known_preferences (um : Agent.UserMemory) : Prop :=
  ∀ key, is_Some (Agent.preferences um !! key) ↔ key ∈ Agent.preference_keys.

End Spec.

(* ================================================================== *)
(** * agent.py: construction, prompt, summary and user management      *)
(* ================================================================== *)

Module AgentMore.
Import Agent.

(** [os.path.join(MEMORY_DIR, f"{user_id}.json")], as the module-level
    functions compute it. *)
Definition memory_path (user_id : string) : string :=
  os_path_join MEMORY_DIR (user_id +:+ ".json").

(** [delete_user_memory], on the files under [MEMORY_DIR]. *)
Definition delete_user_memory (user_id : string) (disk : gmap string UserMemory)
    : bool * gmap string UserMemory :=
  let path := memory_path user_id in
  match disk !! path with
  | Some _ => (true, delete path disk)
  | None => (false, disk)
  end.

(** [view_user_memory] *)
Definition view_user_memory (user_id : string) (disk : gmap string UserMemory)
    : option UserMemory :=
  disk !! memory_path user_id.

(** [register_tools] *)
Definition register_tools (tools_config : list (string * tool * json))
    (st : state) : state :=
  fold_left (fun st entry => register_tool entry.1.1 entry.1.2 entry.2 st)
    tools_config st.

(** [prefs[key]] *)
Definition pref (um : UserMemory) (key : string) : pyres json :=
  match preferences um !! key with
  | Some v => Ret v
  | None => Raise (KeyError key)
  end.

(** [a or b] where [b] is a str literal. *)
Definition or_default (a : json) (b : string) : json :=
  if truthy a then a else JStr b.

Section Prompt.
Context `{PyLib}.

(** The text of [base_prompt], which [_build_system_prompt] starts from,
    is an argument: it is a constant of some seventy lines that no
    property below looks into. *)
Variable base_prompt : string.

Definition _build_system_prompt (st : state) : pyres string :=
  let um := user_memory st in
  language ← pref um "language";
  language_part ←
    (if truthy language then
       language ← pref um "language";
       Ret [ "- Preferred language: " +:+ py_str language ]
     else Ret []);
  home_name ← pref um "home_station_name";
  home_part ←
    (if truthy home_name then
       home_name ← pref um "home_station_name";
       home ← pref um "home_station";
       Ret [ "- Home station: " +:+ py_str home_name +:+
             " (ID: " +:+ py_str home +:+ ")" ]
     else Ret []);
  work_name ← pref um "work_station_name";
  work_part ←
    (if truthy work_name then
       work_name ← pref um "work_station_name";
       work ← pref um "work_station";
       Ret [ "- Work station: " +:+ py_str work_name +:+
             " (ID: " +:+ py_str work +:+ ")" ]
     else Ret []);
  line ← pref um "preferred_line";
  line_part ←
    (if truthy line then
       line ← pref um "preferred_line";
       Ret [ "- Preferred line: " +:+ py_str line ]
     else Ret []);
  let facts_part :=
    match facts um with
    | [] => []
    | fs => [ "- Known facts: " +:+ join "; " fs ]
    end in
  let user_info_parts :=
    language_part ++ home_part ++ work_part ++ line_part ++ facts_part in
  match user_info_parts with
  | [] => Ret base_prompt
  | _ =>
      Ret (base_prompt +:+
           String "010" (String "010" "## User Information (from memory)") +:+
           String "010" "" +:+ join (String "010" "") user_info_parts)
  end.

Definition get_memory_summary (st : state) : pyres string :=
  let um := user_memory st in
  language ← pref um "language";
  home_name ← pref um "home_station_name";
  work_name ← pref um "work_station_name";
  line ← pref um "preferred_line";
  let lines :=
    [ "用户: " +:+ user_id st;
      "对话次数: " +:+ dec (conversation_count um);
      "偏好语言: " +:+ py_str (or_default language "自动检测");
      "家: " +:+ py_str (or_default home_name "未设置");
      "公司: " +:+ py_str (or_default work_name "未设置");
      "常用线路: " +:+ py_str (or_default line "未设置") ] in
  let lines :=
    match facts um with
    | [] => lines
    | fs => lines ++ [ "已知事实: " +:+ join ", " fs ]
    end in
  Ret (join (String "010" "") lines).

(** [Agent.__init__], with [now] for the clock and [files] for what is
    under [MEMORY_DIR]; the counters of writes and of dispatches start at
    zero. *)
Definition __init__ (user_id : string) (system_prompt : option string)
    (now : string) (files : gmap string UserMemory) : pyres state :=
  let blank :=
    {| Agent.user_id := user_id; tools := ∅; tool_schemas := [];
       user_memory :=
         {| um_user_id := user_id; created_at := now;
            preferences := default_preferences; facts := [];
            conversation_count := 0; last_conversation := None |};
       messages := []; Agent.system_prompt := "";
       disk := files; saves := 0; dispatched := [] |} in
  let st := with_user_memory (_load_memory now blank) blank in
  prompt ←
    (if truthy_str system_prompt then Ret (default "" system_prompt)
     else _build_system_prompt st);
  Ret {| Agent.user_id := user_id; tools := ∅; tool_schemas := [];
         user_memory := user_memory st;
         messages := [ System prompt ]; Agent.system_prompt := prompt;
         disk := files; saves := 0; dispatched := [] |}.

End Prompt.
End AgentMore.

(* ================================================================== *)
(** * What the further properties speak of                             *)
(* ================================================================== *)

Module SpecMore.
Import Agent AgentMore.

(** A user id of lowercase letters, digits, [_] and [-].  The model keeps
    a file under the text of its path, while a file system resolves a
    path: [memory/./alice.json] is the file [memory/alice.json], and some
    file systems fold case.  Between ids of these characters, different
    texts are different files of [MEMORY_DIR]. *)
Definition plain_char (c : ascii) : bool :=
  let n := nat_of_ascii c in
  (((97 <=? n) && (n <=? 122)) || ((48 <=? n) && (n <=? 57))
   || (n =? 95) || (n =? 45))%nat.

Definition plain_user_id (user_id : string) : bool :=
  forallb plain_char (list_ascii_of_string user_id).

(** Waits below 2^26 minutes, in microseconds. *)
Definition float_horizon : Z := 67108864 * 60000000.

(** On a wait below the horizon the float quotient is near enough to the
    exact one for [round] to give the same whole number: the two differ by
    less than one part in 2^52, and an exact quotient that is not a tie is
    at least 1/60000000 away from one. *)
Definition rounds_as_exact `{PyLib} : Prop :=
  ∀ d, 0 ≤ d < float_horizon → round_minutes d = round_half_even d 60000000.

(** The user's file holds the document the agent has in memory. *)
Definition on_disk (st : state) : Prop :=
  disk st !! _get_memory_path st = Some (user_memory st).

(** What an operation on the transcript leaves as it is. *)
Definition same_agent (st st' : state) : Prop :=
  user_id st' = user_id st ∧
  tools st' = tools st ∧
  tool_schemas st' = tool_schemas st ∧
  user_memory st' = user_memory st ∧
  system_prompt st' = system_prompt st ∧
  disk st' = disk st ∧
  saves st' = saves st.

(** Every tool message answers a call of the assistant message before
    it: [pending] holds the ids of the calls of the last assistant object
    seen, and is emptied by any message that is neither that nor a tool
    message. *)
Fixpoint correlated (pending : list string) (ms : list message) : bool :=
  match ms with
  | [] => true
  | AssistantObject m :: ms' => correlated (map tc_id (tool_calls m)) ms'
  | Tool tool_call_id _ :: ms' =>
      bool_decide (tool_call_id ∈ pending) && correlated pending ms'
  | _ :: ms' => correlated [] ms'
  end.

Fixpoint pending_after (pending : list string) (ms : list message)
    : list string :=
  match ms with
  | [] => pending
  | AssistantObject m :: ms' => pending_after (map tc_id (tool_calls m)) ms'
  | Tool _ _ :: ms' => pending_after pending ms'
  | _ :: ms' => pending_after [] ms'
  end.

(** A message that the tool loop appends. *)
Definition loop_message (m : message) : Prop :=
  match m with
  | AssistantObject _ | Tool _ _ => True
  | _ => False
  end.

(** The last function registered under [name] in a batch, if any. *)
Definition last_registered (name : string)
    (tools_config : list (string * tool * json)) : option tool :=
  (λ entry : string * tool * json, entry.1.2) <$>
  List.find (λ entry : string * tool * json, String.eqb entry.1.1 name)
    (rev tools_config).

Section Rounds.
Context `{PyLib}.

(** The arguments of a call, when its text parses. *)
Definition parsed (call : tool_call) : json :=
  default JNull (json_loads (tc_arguments call)).

Definition parses (call : tool_call) : Prop :=
  is_Some (json_loads (tc_arguments call)).

(** The tool message that answers [call] in the agent [st]. *)
Definition answer_to (st : state) (call : tool_call) : message :=
  Tool (tc_id call) (_call_tool (tc_name call) (parsed call) st).

(** What one round of the loop appends: the assistant's message, then
    the answers to its calls in their order. *)
Definition round_messages (st : state) (m : assistant_message) : list message :=
  AssistantObject m :: map (answer_to st) (tool_calls m).

Definition round_dispatches (m : assistant_message) : list (string * json) :=
  map (λ call, (tc_name call, parsed call)) (tool_calls m).

End Rounds.
End SpecMore.

(* ================================================================== *)
(** * Further scenarios                                                 *)
(* ================================================================== *)

Module ScenarioMore.
Import Mbta Agent AgentMore Scenario.

(** A timestamp without a UTC offset among the predictions. *)
Definition naive_record : prediction_resource :=
  {| attr_arrival_time := Some "2024-01-15T10:07:00";
     attr_departure_time := None;
     attr_direction_id := Some 0;
     attr_status := None;
     rel_route_data := Some "Red" |}.

Definition naive_response : response prediction_resource :=
  {| status_code := 200; json_data := Some [ naive_record ] |}.

Definition alert_of_severity (text : string) (level : Z) : alert_resource :=
  {| attr_header := Some (JStr text);
     attr_description := None;
     attr_effect := Some (JStr "DELAY");
     attr_severity := Some level;
     attr_updated_at := None;
     attr_informed_entity := Some [ Some "Red"; None; Some "Red" ] |}.

(** Three alerts, the least severe first. *)
Definition alerts_response : response alert_resource :=
  {| status_code := 200;
     json_data := Some
       [ alert_of_severity "Minor delays" 3;
         alert_of_severity "Shuttle buses" 7;
         alert_of_severity "Signal problem" 7 ] |}.

(** Two alerts of one severity. *)
Definition level_response : response alert_resource :=
  {| status_code := 200;
     json_data := Some
       [ alert_of_severity "Shuttle buses" 7;
         alert_of_severity "Signal problem" 7 ] |}.

(** Alice's document after a hand edit that removed a key. *)
Definition edited : state :=
  with_user_memory
    {| um_user_id := "alice";
       created_at := "2024-01-15T10:00:00";
       preferences := delete "language" default_preferences;
       facts := [];
       conversation_count := 0;
       last_conversation := None |}
    alice.

(** Alice after she has set her language. *)
Definition alice_zh : state := (set_preference "language" (JStr "zh") alice).2.

Definition base : string := "You are Genos, a helpful Boston subway assistant.".

(** Bob's document, and Alice on a disk that holds it. *)
Definition bob_document : UserMemory :=
  {| um_user_id := "bob";
     created_at := "2024-01-10T08:00:00";
     preferences := default_preferences;
     facts := [ "Works in Kendall Square" ];
     conversation_count := 4;
     last_conversation := Some "2024-01-14T18:30:00" |}.

Definition alice_beside_bob : state :=
  {| user_id := "alice";
     tools := tools alice;
     tool_schemas := [];
     user_memory := user_memory alice;
     messages := messages alice;
     system_prompt := system_prompt alice;
     disk := <[ memory_path "bob" := bob_document ]> ∅;
     saves := 0;
     dispatched := [] |}.

(** The same after Alice has set her language: both have a file. *)
Definition alice_and_bob : state :=
  (set_preference "language" (JStr "zh") alice_beside_bob).2.

End ScenarioMore.

(* ================================================================== *)
(** * Facts about the Python layer                                     *)
(* ================================================================== *)

Module PyFacts.

Lemma dict_mem_get (k : string) (d : pydict) :
  dict_mem k d = true ↔ is_Some (dict_get k d).
Proof.
  unfold dict_mem. destruct (dict_get k d); split; intros Hm; eauto.
  - discriminate.
  - by destruct Hm.
Qed.

Lemma dict_get_keys (k : string) (d : pydict) :
  is_Some (dict_get k d) ↔ k ∈ map fst d.
Proof.
  induction d as [|[k' v] d IH]; simpl.
  - split; [intros [? ?]; discriminate | intros Hin; inversion Hin].
  - destruct (String.eqb_spec k k') as [->|Hne].
    + split; [intros _; left | eauto].
    + rewrite IH. split; [by right | intros Hin].
      inversion Hin; subst; [done | assumption].
Qed.

Lemma dict_get_set (k k' : string) (v : json) (d : pydict) :
  dict_get k (dict_set k' v d) = if String.eqb k k' then Some v else dict_get k d.
Proof.
  induction d as [|[k0 v0] d IH]; simpl.
  - reflexivity.
  - destruct (String.eqb_spec k' k0) as [->|Hne]; simpl.
    + destruct (String.eqb_spec k k0); reflexivity.
    + rewrite IH. destruct (String.eqb_spec k k0) as [->|]; [|reflexivity].
      destruct (String.eqb_spec k0 k'); [congruence | reflexivity].
Qed.

Lemma dict_set_fresh (k : string) (v : json) (d : pydict) :
  dict_mem k d = false → dict_set k v d = d ++ [(k, v)].
Proof.
  unfold dict_mem. induction d as [|[k0 v0] d IH]; simpl; [done|].
  destruct (String.eqb_spec k k0); [discriminate|].
  intros Hd. by rewrite IH.
Qed.

Section SortFacts.
Context {A : Type} (key : A → Z).

Let le (a b : A) : bool := key a <=? key b.

Lemma insert_sorted_perm (x : A) (l : list A) :
  Permutation (insert_sorted le x l) (x :: l).
Proof.
  induction l as [|y l IH]; simpl; [done|].
  destruct (le x y); [done|].
  rewrite IH. apply perm_swap.
Qed.

Lemma sort_by_perm (l : list A) : Permutation (sort_by le l) l.
Proof.
  induction l as [|x l IH]; simpl; [done|].
  rewrite insert_sorted_perm. by constructor.
Qed.

Lemma insert_sorted_sorted (x : A) (l : list A) :
  StronglySorted (λ a b, key a ≤ key b) l →
  StronglySorted (λ a b, key a ≤ key b) (insert_sorted le x l).
Proof.
  induction 1 as [|y l Hs IH Hall]; simpl.
  - repeat constructor.
  - unfold le at 1. destruct (Z.leb_spec (key x) (key y)) as [Hle|Hgt].
    + constructor; [by constructor|].
      constructor; [done|].
      eapply Forall_impl; [exact Hall|]. simpl. intros; lia.
    + constructor; [done|].
      rewrite insert_sorted_perm. constructor; [lia | done].
Qed.

Lemma sort_by_sorted (l : list A) :
  StronglySorted (λ a b, key a ≤ key b) (sort_by le l).
Proof.
  induction l as [|x l IH]; simpl; [constructor|].
  by apply insert_sorted_sorted.
Qed.



Lemma sorted_filter (f : A → bool) (l : list A) :
  StronglySorted (λ a b, key a ≤ key b) l →
  StronglySorted (λ a b, key a ≤ key b) (List.filter f l).
Proof.
  induction 1 as [|y l Hs IH Hall]; simpl; [constructor|].
  destruct (f y); [|done].
  constructor; [done|].
  rewrite List.Forall_forall in *. intros z Hz.
  apply List.filter_In in Hz. apply Hall, Hz.
Qed.

Lemma sorted_take (n : nat) (l : list A) :
  StronglySorted (λ a b, key a ≤ key b) l →
  StronglySorted (λ a b, key a ≤ key b) (take n l).
Proof.
  intros Hs. revert n. induction Hs as [|y l Hs IH Hall]; intros [|n]; simpl;
    try constructor; [by apply IH|].
  by apply Forall_take.
Qed.

End SortFacts.

End PyFacts.

(* ================================================================== *)
(** * The transit data client                                          *)
(* ================================================================== *)

Module MbtaFacts.
Import Mbta Spec PyFacts.

(** Case analysis on the status test every operation starts with. *)
Ltac by_status resp :=
  destruct (Z.eqb_spec (status_code resp) 200); simpl; try done.

Section Client.
Context `{PyLib}.

(** ** get_predictions *)

Lemma or_str_chosen (pred : prediction_resource) :
  truthy_str (or_str (attr_arrival_time pred) (attr_departure_time pred)) = true →
  ∃ s, or_str (attr_arrival_time pred) (attr_departure_time pred) = Some s ∧
       chosen_time pred s.
Proof.
  unfold or_str, chosen_time.
  destruct (attr_arrival_time pred) as [a|] eqn:Ha; simpl.
  - destruct (String.eqb_spec a "") as [->|Hne]; simpl.
    + destruct (attr_departure_time pred) as [d|]; simpl; [|discriminate].
      destruct (String.eqb_spec d ""); [discriminate|]. intros _.
      exists d. eauto 6.
    + intros _. exists a. eauto.
  - destruct (attr_departure_time pred) as [d|]; simpl; [|discriminate].
    destruct (String.eqb_spec d ""); [discriminate|]. intros _.
    exists d. eauto 6.
Qed.

Lemma prediction_of_entry (now : Z) (pred : prediction_resource) (p : prediction) :
  prediction_of now pred = Ret (Some p) → entry_from now pred p.
Proof.
  unfold prediction_of, entry_from.
  destruct (truthy_str (or_str _ _)) eqn:Ht; simpl; [|discriminate].
  destruct (or_str_chosen pred Ht) as (s & -> & Hs). simpl.
  destruct (fromisoformat _) as [dt|] eqn:Hdt; [|discriminate].
  destruct (utcoffset_us dt) as [offset|] eqn:Hoff; [|discriminate].
  destruct (Z.ltb_spec (wall_us dt - offset) now) as [|Hge]; [discriminate|].
  intros [= <-]. exists s, dt, offset. simpl. eauto 10.
Qed.

(** A record with neither time, or whose time is before [now], is
    skipped: it gives no entry and raises nothing. *)
Lemma prediction_of_no_time (now : Z) (pred : prediction_resource) :
  truthy_str (attr_arrival_time pred) = false →
  truthy_str (attr_departure_time pred) = false →
  prediction_of now pred = Ret None.
Proof.
  intros Ha Hd. unfold prediction_of, or_str. rewrite Ha, Hd. reflexivity.
Qed.

Lemma prediction_of_past (now : Z) (pred : prediction_resource)
    (s : string) (dt : datetime) (offset : Z) :
  chosen_time pred s →
  fromisoformat (replace_char "Z" "+00:00" s) = Some dt →
  utcoffset_us dt = Some offset →
  wall_us dt - offset < now →
  prediction_of now pred = Ret None.
Proof.
  intros [Hne Hs] Hdt Hoff Hlt. unfold prediction_of.
  assert (or_str (attr_arrival_time pred) (attr_departure_time pred) = Some s)
    as ->.
  { unfold or_str. destruct Hs as [-> | [[-> | ->] ->]]; simpl; try done.
    by destruct (String.eqb_spec s ""). }
  simpl. destruct (String.eqb_spec s ""); [done|]. simpl.
  rewrite Hdt, Hoff. by destruct (Z.ltb_spec (wall_us dt - offset) now); [|lia].
Qed.

Lemma collect_predictions_from (now : Z) (data : list prediction_resource) :
  ∀ acc out, collect_predictions now data acc = Ret out →
    ∃ new, out = acc ++ new ∧
      Forall (λ p, ∃ pred, pred ∈ data ∧ entry_from now pred p) new.
Proof.
  induction data as [|pred data IH]; simpl; intros acc out Hout.
  - injection Hout as <-. exists []. by rewrite app_nil_r.
  - destruct (prediction_of now pred) as [[p|]|] eqn:Hp; simpl in Hout;
      try discriminate.
    + destruct (IH _ _ Hout) as (new & -> & Hnew).
      exists (p :: new). rewrite <- app_assoc. split; [done|].
      constructor.
      * exists pred. split; [left | by apply prediction_of_entry].
      * eapply Forall_impl; [exact Hnew|].
        intros q (pr & Hin & Hq). exists pr. split; [by right | done].
    + destruct (IH _ _ Hout) as (new & -> & Hnew).
      exists new. split; [done|].
      eapply Forall_impl; [exact Hnew|].
      intros q (pr & Hin & Hq). exists pr. split; [by right | done].
Qed.

(** The two shapes of what [get_predictions] returns. *)
Lemma get_predictions_inv (stop_id : string) (route_id direction : option string)
    (resp : response prediction_resource) (now : Z) (r : pydict) :
  get_predictions stop_id route_id direction resp now = Ret r →
  (status_code resp ≠ 200 ∧
   r = [ api_error (status_code resp); ("stop_id", JStr stop_id) ]) ∨
  (status_code resp = 200 ∧ dict_mem "error" r = false ∧
   ∃ preds, dict_get "predictions" r = Some (JList (map prediction_dict preds)) ∧
            predictions_ok now direction (data_of resp) preds).
Proof.
  unfold get_predictions.
  destruct (Z.eqb_spec (status_code resp) 200) as [H200|Hne]; simpl.
  2: { intros [= <-]. by left. }
  intros Hr. right. split; [done|].
  destruct (data_of resp) as [|pred0 data] eqn:Hdata.
  - injection Hr as <-. split; [reflexivity|].
    exists []. split; [reflexivity|].
    repeat split; simpl; try lia; constructor.
  - destruct (collect_predictions now (pred0 :: data) []) as [collected|] eqn:Hc;
      simpl in Hr; [|discriminate].
    injection Hr as <-. split; [reflexivity|].
    eexists. split; [reflexivity|].
    apply collect_predictions_from in Hc as (new & -> & Hnew). simpl in Hnew.
    simpl. set (sorted := sort_by _ new).
    assert (StronglySorted (λ a b, minutes a ≤ minutes b) sorted) as Hsorted
      by apply sort_by_sorted.
    assert (Forall (λ p, ∃ pred, pred ∈ pred0 :: data ∧ entry_from now pred p)
              sorted) as Hfrom.
    { rewrite List.Forall_forall in *. intros p Hp. apply Hnew.
      eapply Permutation_in; [apply sort_by_perm | exact Hp]. }
    clearbody sorted. clear Hnew.
    destruct (truthy_str direction) eqn:Hdir.
    + repeat split.
      * rewrite length_take. lia.
      * by apply sorted_take, sorted_filter.
      * apply Forall_take. rewrite List.Forall_forall in *. intros p Hp.
        apply List.filter_In in Hp. apply Hfrom, Hp.
      * intros d -> _. apply Forall_take. simpl.
        rewrite List.Forall_forall. intros p Hp.
        apply List.filter_In in Hp. apply Hp.
    + repeat split.
      * rewrite length_take. lia.
      * by apply sorted_take.
      * by apply Forall_take.
      * intros d -> Hd. simpl in Hdir.
        destruct (String.eqb_spec d ""); [done | discriminate].
Qed.

Lemma get_predictions_error (stop_id : string) (route_id direction : option string)
    (resp : response prediction_resource) (now : Z) :
  status_code resp ≠ 200 →
  get_predictions stop_id route_id direction resp now
  = Ret [ api_error (status_code resp); ("stop_id", JStr stop_id) ].
Proof.
  intros Hne. unfold get_predictions. by_status resp.
Qed.


(** ** Which records give an entry *)








(** ** get_next_train *)

Lemma next_train_of_predictions (stop_id : string)
    (route_id direction : option string) (r : pydict) (preds : list prediction) :
  dict_mem "error" r = false →
  dict_get "predictions" r = Some (JList (map prediction_dict preds)) →
  ∃ r' message,
    next_train_of stop_id route_id direction r = Ret r' ∧
    dict_mem "error" r' = false ∧
    dict_get "message" r' = Some (JStr message) ∧
    match preds with
    | [] => dict_get "has_data" r' = Some (JBool false)
    | p :: _ =>
        dict_get "has_data" r' = Some (JBool true) ∧
        dict_get "route" r' = Some (JStr (route p)) ∧
        dict_get "direction" r' = Some (JStr (Mbta.direction p)) ∧
        dict_get "minutes" r' = Some (JInt (minutes p)) ∧
        dict_get "time" r' = Some (JStr (time p))
    end.
Proof.
  intros Herr Hp. unfold next_train_of, subscript. rewrite Herr, Hp.
  destruct preds as [|p preds]; simpl.
  - eexists _, _. repeat split; reflexivity.
  - eexists _, _. repeat split; reflexivity.
Qed.

(** C1: when [get_predictions] returns without an error, [get_next_train]
    returns a dict with a boolean [has_data] and a message; [has_data] is
    false exactly when the prediction list is empty, and otherwise the
    dict carries the route, direction, minutes and time of the first
    entry, which is a soonest one. *)
Theorem get_next_train_has_data (stop_id : string)
    (route_id direction : option string)
    (resp : response prediction_resource) (now : Z) (r : pydict) :
  get_predictions stop_id route_id direction resp now = Ret r →
  dict_mem "error" r = false →
  ∃ preds r' (has_data : bool) message,
    dict_get "predictions" r = Some (JList (map prediction_dict preds)) ∧
    get_next_train stop_id route_id direction resp now = Ret r' ∧
    dict_get "has_data" r' = Some (JBool has_data) ∧
    dict_get "message" r' = Some (JStr message) ∧
    (has_data = false ↔ preds = []) ∧
    (∀ p rest, preds = p :: rest →
       has_data = true ∧
       dict_get "route" r' = Some (JStr (route p)) ∧
       dict_get "direction" r' = Some (JStr (Mbta.direction p)) ∧
       dict_get "minutes" r' = Some (JInt (minutes p)) ∧
       dict_get "time" r' = Some (JStr (time p)) ∧
       Forall (λ q, minutes p ≤ minutes q) rest).
Proof.
  intros Hr Herr.
  destruct (get_predictions_inv _ _ _ _ _ _ Hr) as [[_ ->] | (_ & _ & preds & Hp & Hok)].
  { discriminate Herr. }
  destruct (next_train_of_predictions stop_id route_id direction r preds Herr Hp)
    as (r' & message & Hr' & _ & Hmsg & Hshape).
  unfold get_next_train. rewrite Hr. simpl.
  destruct preds as [|p preds].
  - exists [], r', false, message.
    split; [assumption|]. split; [assumption|]. split; [assumption|].
    split; [assumption|]. split; [done|].
    intros p rest [=].
  - destruct Hshape as (Hd & Hro & Hdi & Hmi & Hti).
    exists (p :: preds), r', true, message.
    split; [assumption|]. split; [assumption|]. split; [assumption|].
    split; [assumption|]. split; [split; discriminate|].
    intros p' rest [= <- <-]. repeat split; try assumption.
    destruct Hok as (_ & Hsorted & _). by inversion Hsorted.
Qed.

(** C10: when [get_predictions] returns an error dict, both wrappers
    return that dict as it is; it has an [error] key and no [has_data]
    key, and the upstream status was not 200. *)
Theorem wrappers_pass_error_through (stop_id : string)
    (route_id direction : option string)
    (resp : response prediction_resource) (now : Z) (r : pydict) :
  get_predictions stop_id route_id direction resp now = Ret r →
  dict_mem "error" r = true →
  get_next_train stop_id route_id direction resp now = Ret r ∧
  (∀ route, route_id = Some route → direction = None →
     get_both_directions stop_id route resp now = Ret r) ∧
  dict_mem "has_data" r = false ∧
  status_code resp ≠ 200.
Proof.
  intros Hr Herr.
  destruct (get_predictions_inv _ _ _ _ _ _ Hr) as [[Hne ->] | (_ & Hno & _)].
  2: { rewrite Hno in Herr. discriminate. }
  repeat split; try assumption.
  - unfold get_next_train. rewrite Hr. reflexivity.
  - intros route -> ->. unfold get_both_directions. rewrite Hr. reflexivity.
Qed.

(** ** get_both_directions *)

Lemma first_of_soonest (d : string) (preds : list prediction) (p : prediction) :
  StronglySorted (λ a b, minutes a ≤ minutes b) preds →
  first_of d preds = Some p →
  p ∈ preds ∧ Mbta.direction p = d ∧
  ∀ q, q ∈ preds → Mbta.direction q = d → minutes p ≤ minutes q.
Proof.
  unfold first_of. induction 1 as [|x l Hs IH Hall]; simpl; [discriminate|].
  destruct (String.eqb_spec (Mbta.direction x) d) as [Hd|Hne].
  - intros [= <-]. split; [left|]. split; [done|].
    intros q Hq _. inversion Hq; subst; [lia|].
    rewrite List.Forall_forall in Hall. apply Hall. by apply list_elem_of_In.
  - intros Hf. destruct (IH Hf) as (Hin & Hdp & Hmin).
    split; [by right|]. split; [done|].
    intros q Hq Hdq. inversion Hq; subst; [done|]. by apply Hmin.
Qed.

Lemma first_of_None (d : string) (preds : list prediction) :
  first_of d preds = None ↔ ¬ ∃ p, p ∈ preds ∧ Mbta.direction p = d.
Proof.
  unfold first_of. induction preds as [|x l IH]; simpl.
  - split; [|done]. intros _ (p & Hp & _). inversion Hp.
  - destruct (String.eqb_spec (Mbta.direction x) d) as [Hd|Hne].
    + split; [discriminate|]. intros Hno. exfalso. apply Hno.
      exists x. split; [left | done].
    + rewrite IH. split; intros Hno (p & Hp & Hd); apply Hno.
      * inversion Hp; subst; [done|]. eauto.
      * exists p. split; [by right | done].
Qed.

(** The grouping loop on the entries of a prediction list: it raises
    nothing, keeps what is stored and adds the first entry of each new
    direction. *)
Lemma group_directions_spec (preds : list prediction) :
  ∀ acc,
    NoDup (map fst acc) →
    Forall (λ e, ∃ q, e.2 = direction_info q) acc →
    ∃ out,
      group_directions (map prediction_dict preds) acc = Ret out ∧
      NoDup (map fst out) ∧
      Forall (λ e, ∃ q, e.2 = direction_info q) out ∧
      ∀ d, dict_get d out =
           match dict_get d acc with
           | Some v => Some v
           | None => direction_info <$> first_of d preds
           end.
Proof.
  induction preds as [|p preds IH]; intros acc Hnd Hinfo.
  - exists acc. repeat split; try assumption.
    intros d. simpl. by destruct (dict_get d acc).
  - simpl. destruct (dict_mem (Mbta.direction p) acc) eqn:Hmem; simpl.
    + destruct (IH acc Hnd Hinfo) as (out & Hout & Hnd' & Hinfo' & Hget).
      exists out. repeat split; try assumption.
      intros d. rewrite Hget. destruct (dict_get d acc) eqn:Hd; [done|].
      unfold first_of. simpl.
      destruct (String.eqb_spec (Mbta.direction p) d) as [<-|]; [|done].
      unfold dict_mem in Hmem. by rewrite Hd in Hmem.
    + rewrite (dict_set_fresh _ _ _ Hmem).
      destruct (IH (acc ++ [(Mbta.direction p, direction_info p)]))
        as (out & Hout & Hnd' & Hinfo' & Hget).
      { rewrite map_app. simpl. apply NoDup_app. repeat split; try assumption.
        - intros k Hk Hk'. apply list_elem_of_singleton in Hk' as ->.
          apply dict_get_keys, dict_mem_get in Hk. congruence.
        - apply NoDup_singleton. }
      { apply Forall_app. split; [assumption|]. repeat constructor. by exists p. }
      exists out. repeat split; try assumption.
      intros d. rewrite Hget.
      rewrite <- (dict_set_fresh _ _ _ Hmem), dict_get_set.
      unfold first_of. simpl. rewrite String.eqb_sym.
      destruct (String.eqb_spec (Mbta.direction p) d) as [<-|]; [|done].
      unfold dict_mem in Hmem. by destruct (dict_get (Mbta.direction p) acc).
Qed.

Lemma direction_lines_total (directions : pydict) :
  Forall (λ e, ∃ q, e.2 = direction_info q) directions →
  ∃ lines, direction_lines directions = Ret lines.
Proof.
  induction 1 as [|[d info] l [q Hq] _ [lines IH]]; simpl; [by eexists|].
  simpl in Hq. subst info. simpl. rewrite IH. simpl. by eexists.
Qed.

Lemma both_directions_of_predictions (stop_id route_id : string) (r : pydict)
    (preds : list prediction) :
  dict_mem "error" r = false →
  dict_get "predictions" r = Some (JList (map prediction_dict preds)) →
  ∃ r',
    both_directions_of stop_id route_id r = Ret r' ∧
    dict_mem "error" r' = false ∧
    match preds with
    | [] => dict_get "has_data" r' = Some (JBool false)
    | _ =>
        ∃ directions,
          group_directions (map prediction_dict preds) [] = Ret directions ∧
          dict_get "has_data" r' = Some (JBool true) ∧
          dict_get "directions" r' = Some (JDict directions)
    end.
Proof.
  intros Herr Hp.
  destruct (group_directions_spec preds []) as (out & Hout & Hnd & Hinfo & Hget);
    [constructor | constructor |].
  destruct (direction_lines_total out Hinfo) as [lines Hlines].
  unfold both_directions_of, subscript. rewrite Herr, Hp.
  cbn [mbind pyres_bind].
  destruct preds as [|p preds].
  - eexists. repeat split; reflexivity.
  - cbn [truthy map negb iterate mbind pyres_bind].
    change (prediction_dict p :: map prediction_dict preds)
      with (map prediction_dict (p :: preds)).
    rewrite Hout. cbn [mbind pyres_bind]. rewrite Hlines. cbn [mbind pyres_bind].
    eexists. split; [reflexivity|]. split; [reflexivity|].
    exists out. repeat split; reflexivity.
Qed.

(** C9: for a successful call whose prediction list is not empty,
    [get_both_directions] returns [has_data] true and a [directions] dict
    with one entry per direction name of the list, holding the minutes and
    time of that direction's first entry, which is a soonest one; and for
    the list of one Alewife entry in 3 minutes and one Ashmont entry in 7
    it returns these two entries. *)
Theorem get_both_directions_groups :
  (∀ (stop_id route_id : string) (resp : response prediction_resource)
     (now : Z) (r : pydict),
     get_predictions stop_id (Some route_id) None resp now = Ret r →
     dict_mem "error" r = false →
     ∃ preds,
       dict_get "predictions" r = Some (JList (map prediction_dict preds)) ∧
       (preds ≠ [] →
        ∃ r' directions,
          get_both_directions stop_id route_id resp now = Ret r' ∧
          dict_get "has_data" r' = Some (JBool true) ∧
          dict_get "directions" r' = Some (JDict directions) ∧
          NoDup (map fst directions) ∧
          (∀ d, d ∈ map fst directions ↔
                ∃ p, p ∈ preds ∧ Mbta.direction p = d) ∧
          (∀ d info, dict_get d directions = Some info →
             ∃ p, first_of d preds = Some p ∧
                  info = direction_info p ∧
                  ∀ q, q ∈ preds → Mbta.direction q = d →
                       minutes p ≤ minutes q))) ∧
  (∀ (t3 t7 : string) (s3 s7 : json),
     ∃ r',
       both_directions_of "place-harsq" "Red"
         [ ("stop_id", JStr "place-harsq");
           ("route_filter", JStr "Red");
           ("direction_filter", JNull);
           ("predictions", JList
              [ prediction_dict
                  {| route := "Red"; direction := "Alewife"; minutes := 3;
                     time := t3; status := s3 |};
                prediction_dict
                  {| route := "Red"; direction := "Ashmont"; minutes := 7;
                     time := t7; status := s7 |} ]) ]
       = Ret r' ∧
       dict_get "has_data" r' = Some (JBool true) ∧
       dict_get "directions" r'
       = Some (JDict
           [ ("Alewife", JDict [ ("minutes", JInt 3); ("time", JStr t3) ]);
             ("Ashmont", JDict [ ("minutes", JInt 7); ("time", JStr t7) ]) ])).
Proof.
  split.
  - intros stop_id route_id resp now r Hr Herr.
    destruct (get_predictions_inv _ _ _ _ _ _ Hr)
      as [[_ ->] | (_ & _ & preds & Hp & Hok)].
    { discriminate Herr. }
    exists preds. split; [assumption|]. intros Hne.
    destruct (group_directions_spec preds []) as (out & Hout & Hnd & Hinfo & Hget).
    { constructor. }
    { constructor. }
    destruct (both_directions_of_predictions stop_id route_id r preds Herr Hp)
      as (r' & Hr' & _ & Hshape).
    destruct preds as [|p0 preds0] eqn:Hpreds; [done|]. rewrite <- Hpreds in *.
    destruct Hshape as (out' & Hout' & Hdata & Hdirs).
    assert (out' = out) as -> by congruence.
    unfold get_both_directions. rewrite Hr. cbn [mbind pyres_bind].
    exists r', out. split; [assumption|]. split; [assumption|].
    split; [assumption|]. split; [assumption|].
    destruct Hok as (_ & Hsorted & _).
    split.
    + intros d. rewrite <- dict_get_keys, Hget. simpl.
      destruct (first_of d preds) as [p|] eqn:Hf; simpl.
      * destruct (first_of_soonest d preds p Hsorted Hf) as (Hin & Hd & _).
        split; [eauto | by eexists].
      * apply first_of_None in Hf. split; [intros [? ?]; discriminate | done].
    + intros d info. rewrite Hget. simpl.
      destruct (first_of d preds) as [p|] eqn:Hf; simpl; [|discriminate].
      intros [= <-]. exists p. split; [done|]. split; [done|].
      by destruct (first_of_soonest d preds p Hsorted Hf) as (_ & _ & Hmin).
  - intros t3 t7 s3 s7. eexists. split; [reflexivity|].
    split; reflexivity.
Qed.

(** ** The error policy *)

Lemma total_reports_error (status : Z) (result : pydict) :
  (status ≠ 200 → result = [ api_error status ]) →
  (status = 200 → dict_mem "error" result = false) →
  reports_error status (Ret result) [ api_error status ].
Proof.
  intros Herr Hok. split; [split|].
  - intros (r & [= <-] & Hmem) H200. rewrite (Hok H200) in Hmem. discriminate.
  - intros Hne. exists result. split; [done|]. by rewrite (Herr Hne).
  - intros Hne. by rewrite (Herr Hne).
Qed.

(** C5, as the code has it: each operation returns a dict with an [error]
    key exactly when the upstream status is not 200; the dict is then the
    error (with the [stop_id] for the prediction operations) and nothing
    else. *)
Theorem error_iff_status_not_200 :
  (∀ route_type resp,
     reports_error (status_code resp) (Ret (get_routes route_type resp))
       [ api_error (status_code resp) ]) ∧
  (∀ route_id resp,
     reports_error (status_code resp) (Ret (get_stops route_id resp))
       [ api_error (status_code resp) ]) ∧
  (∀ query resp,
     reports_error (status_code resp) (Ret (search_stops query resp))
       [ api_error (status_code resp) ]) ∧
  (∀ route_id resp,
     reports_error (status_code resp) (Ret (get_alerts route_id resp))
       [ api_error (status_code resp) ]) ∧
  (∀ stop_id route_id direction resp now,
     reports_error (status_code resp)
       (get_predictions stop_id route_id direction resp now)
       [ api_error (status_code resp); ("stop_id", JStr stop_id) ]) ∧
  (∀ stop_id route_id direction resp now,
     reports_error (status_code resp)
       (get_next_train stop_id route_id direction resp now)
       [ api_error (status_code resp); ("stop_id", JStr stop_id) ]) ∧
  (∀ stop_id route_id resp now,
     reports_error (status_code resp)
       (get_both_directions stop_id route_id resp now)
       [ api_error (status_code resp); ("stop_id", JStr stop_id) ]).
Proof.
  split; [|split; [|split; [|split]]].
  - intros route_type resp. apply total_reports_error; unfold get_routes.
    + intros Hne. by_status resp.
    + intros ->. reflexivity.
  - intros route_id resp. apply total_reports_error; unfold get_stops.
    + intros Hne. by_status resp.
    + intros ->. reflexivity.
  - intros query resp. apply total_reports_error; unfold search_stops.
    + intros Hne. by_status resp.
    + intros ->. reflexivity.
  - intros route_id resp. apply total_reports_error; unfold get_alerts.
    + intros Hne. by_status resp.
    + intros ->. simpl. by destruct (sort_by _ _).
  - split; [|split].
    + intros stop_id route_id dir resp now. split; [split|].
      * intros (r & Hr & Herr).
        destruct (get_predictions_inv _ _ _ _ _ _ Hr) as [[Hne _] | (_ & Hno & _)];
          [done | congruence].
      * intros Hne. eexists.
        split; [by apply get_predictions_error | reflexivity].
      * intros Hne. by apply get_predictions_error.
    + intros stop_id route_id dir resp now. split; [split|].
      * intros (r' & Hr' & Herr). unfold get_next_train in Hr'.
        destruct (get_predictions _ _ _ _ _) as [r|] eqn:Hr; [|discriminate].
        cbn [mbind pyres_bind] in Hr'.
        destruct (get_predictions_inv _ _ _ _ _ _ Hr)
          as [[Hne _] | (_ & Hno & preds & Hp & _)]; [done|].
        destruct (next_train_of_predictions stop_id route_id dir r preds Hno Hp)
          as (r2 & ? & Hr2 & Hno2 & _).
        congruence.
      * intros Hne. unfold get_next_train.
        rewrite (get_predictions_error _ _ _ _ _ Hne). eexists.
        split; reflexivity.
      * intros Hne. unfold get_next_train.
        by rewrite (get_predictions_error _ _ _ _ _ Hne).
    + intros stop_id route_id resp now. split; [split|].
      * intros (r' & Hr' & Herr). unfold get_both_directions in Hr'.
        destruct (get_predictions _ _ _ _ _) as [r|] eqn:Hr; [|discriminate].
        cbn [mbind pyres_bind] in Hr'.
        destruct (get_predictions_inv _ _ _ _ _ _ Hr)
          as [[Hne _] | (_ & Hno & preds & Hp & _)]; [done|].
        destruct (both_directions_of_predictions stop_id route_id r preds Hno Hp)
          as (r2 & Hr2 & Hno2 & _).
        congruence.
      * intros Hne. unfold get_both_directions.
        rewrite (get_predictions_error _ _ _ _ _ Hne). eexists.
        split; reflexivity.
      * intros Hne. unfold get_both_directions.
        by rewrite (get_predictions_error _ _ _ _ _ Hne).
Qed.

(** ** get_stops and search_stops *)

Lemma stops_step_dedup (st : gset string * list stop) (res : stop_resource) :
  stops_step st res = dedup_step (λ _, true) st res.
Proof.
  unfold stops_step, dedup_step. by destruct (bool_decide _).
Qed.

Lemma first_id_app (name : string) (l1 l2 : list stop_resource) :
  first_id name (l1 ++ l2) =
  match first_id name l1 with
  | Some i => Some i
  | None => first_id name l2
  end.
Proof.
  unfold first_id. induction l1 as [|r l1 IH]; simpl; [done|].
  by destruct (String.eqb (stop_name r) name).
Qed.

Lemma first_id_single (name : string) (res : stop_resource) :
  first_id name [res] =
  if String.eqb (stop_name res) name then Some (stop_res_id res) else None.
Proof. unfold first_id. simpl. by destruct (String.eqb _ _). Qed.

Lemma dedup_inv_step (keep : string → bool) (done : list stop_resource)
    (st : gset string * list stop) (res : stop_resource) :
  dedup_inv keep done st →
  dedup_inv keep (done ++ [res]) (dedup_step keep st res).
Proof.
  destruct st as [seen out]. intros (Hseen & Hnd & Hout). simpl in *.
  assert (∀ s, first_id (s_name s) done = None →
               first_id (s_name s) (done ++ [res]) = Some (s_id s) →
               s = {| s_id := stop_res_id res; s_name := stop_name res |})
    as Hnew.
  { intros [i n]. simpl. rewrite first_id_app, first_id_single. intros ->.
    destruct (String.eqb_spec (stop_name res) n); [|discriminate].
    intros [= <-]. by subst. }
  unfold dedup_step. simpl.
  destruct (bool_decide (stop_name res ∈ seen)) eqn:Hin; simpl.
  { apply bool_decide_eq_true in Hin.
    split; [done|]. split; [done|]. intros s. rewrite Hout, first_id_app.
    destruct (first_id (s_name s) done) as [i|] eqn:Hf; [done|].
    split; [intros [_ [=]]|]. intros [Hk Hs]. exfalso.
    assert (s_name s = stop_name res) as Hname.
    { rewrite first_id_single in Hs.
      by destruct (String.eqb_spec (stop_name res) (s_name s)). }
    apply Hseen, list_elem_of_fmap in Hin as (s' & Hn' & Hs').
    apply Hout in Hs' as [_ Hs']. congruence. }
  apply bool_decide_eq_false in Hin.
  destruct (keep (stop_name res)) eqn:Hkeep; simpl.
  2: { split; [done|]. split; [done|]. intros s. rewrite Hout, first_id_app.
       destruct (first_id (s_name s) done) as [i|] eqn:Hf; [done|].
       split; [intros [_ [=]]|]. intros [Hk Hs]. exfalso.
       rewrite first_id_single in Hs.
       destruct (String.eqb_spec (stop_name res) (s_name s)); congruence. }
  assert (first_id (stop_name res) done = None) as Hfresh.
  { destruct (first_id (stop_name res) done) as [i|] eqn:Hf; [|done].
    exfalso. apply Hin, Hseen, list_elem_of_fmap.
    exists {| s_id := i; s_name := stop_name res |}. split; [done|].
    apply Hout. done. }
  split; [|split]; simpl.
  - intros n. rewrite map_app, elem_of_union, elem_of_app, Hseen. simpl.
    rewrite elem_of_singleton, list_elem_of_singleton. tauto.
  - rewrite map_app. apply NoDup_app. split; [done|]. split.
    + intros n Hn Hn'. apply list_elem_of_singleton in Hn' as ->.
      by apply Hin, Hseen.
    + apply NoDup_singleton.
  - intros s. rewrite elem_of_app, list_elem_of_singleton, Hout. split.
    + intros [[Hk Hs] | ->].
      * split; [done|]. by rewrite first_id_app, Hs.
      * simpl. split; [done|].
        rewrite first_id_app, Hfresh, first_id_single.
        by rewrite String.eqb_refl.
    + intros [Hk Hs]. destruct (first_id (s_name s) done) as [i|] eqn:Hf.
      * left. split; [done|]. rewrite first_id_app, Hf in Hs. congruence.
      * right. by apply Hnew.
Qed.

Lemma dedup_inv_fold (keep : string → bool) (todo : list stop_resource) :
  ∀ done st,
    dedup_inv keep done st →
    dedup_inv keep (done ++ todo) (fold_left (dedup_step keep) todo st).
Proof.
  induction todo as [|res todo IH]; intros done st Hinv; simpl.
  - by rewrite app_nil_r.
  - replace (done ++ res :: todo) with ((done ++ [res]) ++ todo)
      by (by rewrite <- app_assoc).
    by apply IH, dedup_inv_step.
Qed.

Lemma dedup_inv_init (keep : string → bool) : dedup_inv keep [] (∅, []).
Proof.
  split; [|split]; simpl.
  - intros n. split; [set_solver | intros Hn; inversion Hn].
  - constructor.
  - intros s. split; [intros Hs; inversion Hs | intros [_ [=]]].
Qed.

Lemma fold_stops_step (data : list stop_resource) :
  ∀ st, fold_left stops_step data st = fold_left (dedup_step (λ _, true)) data st.
Proof.
  induction data as [|res data IH]; intros st; simpl; [done|].
  by rewrite stops_step_dedup, IH.
Qed.

(** C6, as the code has it: the stops of a successful [get_stops] or
    [search_stops] have pairwise different names; [get_stops] returns, for
    each upstream name, the first upstream id of that name, and
    [search_stops] returns those of them whose lowercased name contains
    the lowercased query stripped of surrounding whitespace. *)
Theorem stops_deduplicated :
  (∀ route_id resp,
     dict_mem "error" (get_stops route_id resp) = false →
     ∃ stops,
       dict_get "stops" (get_stops route_id resp)
       = Some (JList (map stop_dict stops)) ∧
       NoDup (map s_name stops) ∧
       ∀ s, s ∈ stops ↔ first_id (s_name s) (data_of resp) = Some (s_id s)) ∧
  (∀ query resp,
     dict_mem "error" (search_stops query resp) = false →
     ∃ matches,
       dict_get "results" (search_stops query resp)
       = Some (JList (map stop_dict matches)) ∧
       NoDup (map s_name matches) ∧
       ∀ s, s ∈ matches ↔
            first_id (s_name s) (data_of resp) = Some (s_id s) ∧
            is_substring (str_strip (str_lower query)) (str_lower (s_name s))
            = true).
Proof.
  split.
  - intros route_id resp. unfold get_stops.
    destruct (Z.eqb_spec (status_code resp) 200); simpl; [|discriminate].
    intros _. eexists. split; [reflexivity|].
    rewrite fold_stops_step.
    destruct (dedup_inv_fold (λ _, true) (data_of resp) [] _ (dedup_inv_init _))
      as (_ & Hnd & Hout).
    split; [assumption|]. intros s. rewrite Hout. simpl. tauto.
  - intros query resp. unfold search_stops, search_matches.
    destruct (Z.eqb_spec (status_code resp) 200); simpl; [|discriminate].
    intros _. eexists. split; [reflexivity|].
    set (keep := λ n, is_substring (str_strip (str_lower query)) (str_lower n)).
    change (search_step (str_strip (str_lower query))) with (dedup_step keep).
    destruct (dedup_inv_fold keep (data_of resp) [] _ (dedup_inv_init _))
      as (_ & Hnd & Hout).
    split; [assumption|]. intros s. rewrite Hout. simpl. unfold keep. tauto.
Qed.

End Client.
End MbtaFacts.

(* ================================================================== *)
(** * The agent                                                        *)
(* ================================================================== *)

Module AgentFacts.
Import Agent Spec.

(** ** User memory *)

Lemma default_preferences_known (key : string) :
  is_Some (default_preferences !! key) ↔ key ∈ preference_keys.
Proof.
  unfold default_preferences. split.
  - intros [v Hv]. apply elem_of_list_to_map_2 in Hv.
    apply list_elem_of_fmap in Hv as (k & [= -> _] & Hk). exact Hk.
  - intros Hk. destruct (list_to_map _ !! key) eqn:Hl; [by eexists|].
    apply not_elem_of_list_to_map in Hl. exfalso. apply Hl. exact Hk.
Qed.

(** A new user's document has the seven keys. *)
Lemma _load_memory_new (now : string) (st : state) :
  disk st !! _get_memory_path st = None →
  known_preferences (_load_memory now st) ∧ facts (_load_memory now st) = [].
Proof.
  intros Hnone. unfold _load_memory. rewrite Hnone. split; [|done].
  intros key. apply default_preferences_known.
Qed.

Lemma with_preference_known (key : string) (value : json) (um : UserMemory) :
  key ∈ preference_keys →
  known_preferences um → known_preferences (with_preference key value um).
Proof.
  intros Hkey Hknown k. simpl. rewrite lookup_insert_is_Some.
  rewrite (Hknown k). split; [intros [<- | [_ Hk]]; done | intros Hk].
  destruct (decide (key = k)); [by left | by right].
Qed.

(** C7: on a document with the seven preference keys, [set_preference]
    with any other key returns [False] and changes nothing, neither the
    document nor the disk; with one of the seven it stores the value under
    that key, leaves the other keys as they are and writes the document to
    the user's file at once. *)
Theorem set_preference_known_keys (key : string) (value : json) (st : state) :
  known_preferences (user_memory st) →
  (key ∉ preference_keys → set_preference key value st = (false, st)) ∧
  (key ∈ preference_keys →
   ∃ st',
     set_preference key value st = (true, st') ∧
     preferences (user_memory st') = <[key := value]> (preferences (user_memory st)) ∧
     preferences (user_memory st') !! key = Some value ∧
     (∀ k, k ≠ key →
        preferences (user_memory st') !! k = preferences (user_memory st) !! k) ∧
     known_preferences (user_memory st') ∧
     disk st' !! _get_memory_path st = Some (user_memory st') ∧
     saves st' = S (saves st)).
Proof.
  intros Hknown. unfold set_preference. split.
  - intros Hkey. rewrite bool_decide_eq_false_2; [done|]. by rewrite (Hknown key).
  - intros Hkey. rewrite bool_decide_eq_true_2 by (by rewrite (Hknown key)).
    eexists. split; [reflexivity|]. simpl.
    split; [done|]. split; [by rewrite lookup_insert_eq|].
    split; [intros k Hk; by rewrite lookup_insert_ne|].
    split; [by apply with_preference_known|].
    split; [|done]. unfold _get_memory_path. simpl. by rewrite lookup_insert_eq.
Qed.

Lemma set_preference_keeps_known (key : string) (value : json) (st : state) :
  known_preferences (user_memory st) →
  known_preferences (user_memory (set_preference key value st).2).
Proof.
  intros Hknown. unfold set_preference.
  destruct (bool_decide _) eqn:Hk; simpl; [|done].
  apply bool_decide_eq_true in Hk. apply with_preference_known; [|done].
  by apply Hknown.
Qed.

Lemma add_fact_present (fact : string) (st : state) :
  fact ∈ facts (user_memory st) → add_fact fact st = st.
Proof.
  intros Hin. unfold add_fact. by rewrite bool_decide_eq_true_2.
Qed.

Lemma add_fact_absent (fact : string) (st : state) :
  fact ∉ facts (user_memory st) →
  add_fact fact st
  = _save_memory (with_user_memory (with_fact fact (user_memory st)) st).
Proof.
  intros Hin. unfold add_fact. by rewrite bool_decide_eq_false_2.
Qed.

Lemma add_fact_elem (fact : string) (st : state) :
  fact ∈ facts (user_memory (add_fact fact st)).
Proof.
  destruct (decide (fact ∈ facts (user_memory st))) as [Hin|Hin].
  - by rewrite add_fact_present.
  - rewrite add_fact_absent by done. simpl. apply elem_of_app. right. by left.
Qed.

Lemma add_fact_NoDup (fact : string) (st : state) :
  NoDup (facts (user_memory st)) →
  NoDup (facts (user_memory (add_fact fact st))).
Proof.
  intros Hnd. destruct (decide (fact ∈ facts (user_memory st))) as [Hin|Hin].
  - by rewrite add_fact_present.
  - rewrite add_fact_absent by done. simpl. apply NoDup_app.
    split; [done|]. split; [|apply NoDup_singleton].
    intros x Hx Hx'. apply list_elem_of_singleton in Hx' as ->. done.
Qed.

(** C8: adding a fact a second time changes nothing, in memory or on
    disk; and in a list without repetitions the fact then stands exactly
    once. *)
Theorem add_fact_idempotent (fact : string) (st : state) :
  NoDup (facts (user_memory st)) →
  add_fact fact (add_fact fact st) = add_fact fact st ∧
  count_occ String.string_dec (facts (user_memory (add_fact fact st))) fact = 1%nat ∧
  NoDup (facts (user_memory (add_fact fact st))).
Proof.
  intros Hnd. split; [|split].
  - apply add_fact_present, add_fact_elem.
  - pose proof (add_fact_NoDup fact st Hnd) as Hnd'.
    pose proof (add_fact_elem fact st) as Hin.
    apply NoDup_ListNoDup in Hnd'.
    rewrite (List.NoDup_count_occ String.string_dec) in Hnd'.
    specialize (Hnd' fact).
    apply list_elem_of_In in Hin.
    rewrite (List.count_occ_In String.string_dec) in Hin.
    apply Nat.le_antisymm; [exact Hnd' | exact Hin].
  - by apply add_fact_NoDup.
Qed.

(** ** Tools and the chat loop *)

Section Chat.
Context `{PyLib}.

(** What [_call_tool] answers for a name that is not registered. *)
Lemma _call_tool_unknown (name : string) (arguments : json) (st : state) :
  tools st !! name = None →
  _call_tool name arguments st
  = json_dumps true (JDict [ ("error", JStr ("未知工具: " +:+ name)) ]).
Proof. intros Hnone. unfold _call_tool. by rewrite Hnone. Qed.

(** [_call_tool] answers with the serialised result of the tool or with a
    serialised error dict; no exception leaves it. *)
Lemma _call_tool_payload (name : string) (arguments : json) (st : state) :
  (∃ (func : tool) kwargs result,
     tools st !! name = Some func ∧ arguments = JDict kwargs ∧
     func kwargs = Returns result ∧
     _call_tool name arguments st = json_dumps false result) ∨
  (∃ msg, _call_tool name arguments st
          = json_dumps true (JDict [ ("error", JStr msg) ])).
Proof.
  unfold _call_tool. destruct (tools st !! name) as [func|]; [|by right; eexists].
  destruct arguments as [| | | | |kwargs]; try (by right; eexists).
  destruct (func kwargs) as [result|msg] eqn:Hf; [|by right; eexists].
  left. by exists func, kwargs, result.
Qed.

Lemma tool_loop_unfold (model : list assistant_message)
    (m : assistant_message) (st : state) :
  tool_loop model m st =
  match tool_calls m with
  | [] => (Ret m, st)
  | calls =>
      let st := append_message (AssistantObject m) st in
      match run_tool_calls calls st with
      | (Raise e, st) => (Raise e, st)
      | (Ret _, st) =>
          match model with
          | [] => (Raise APIError, st)
          | next :: model' => tool_loop model' next st
          end
      end
  end.
Proof. by destruct model. Qed.

(** C3, where the code falls short of it: a tool call whose argument text
    [json.loads] rejects makes [chat] raise, after the assistant message
    has been appended and before any tool message is; the call never
    reaches [_call_tool]. *)
Theorem chat_raises_on_unparsable_arguments (user_message now : string)
    (first : assistant_message) (model : list assistant_message)
    (call : tool_call) (rest : list tool_call) (st : state) :
  tool_calls first = call :: rest →
  json_loads (tc_arguments call) = None →
  chat user_message now (first :: model) st
  = (Raise JSONDecodeError,
     append_message (AssistantObject first) (append_message (User user_message) st)).
Proof.
  intros Hcalls Hloads. unfold chat.
  rewrite tool_loop_unfold, Hcalls. simpl. by rewrite Hloads.
Qed.

(** C4, as the code has it: when the model answers with a tool call, a
    second tool call and then a text, and both argument texts parse,
    [chat] dispatches the two calls in that order, returns the text, and
    the transcript grows by the user message and five more: twice an
    assistant message and a tool message, then the final answer. *)
Theorem chat_two_tool_calls (user_message now : string)
    (m1 m2 final : assistant_message) (rest : list assistant_message)
    (call1 call2 : tool_call) (args1 args2 : json) (st : state) :
  tool_calls m1 = [call1] →
  tool_calls m2 = [call2] →
  tool_calls final = [] →
  json_loads (tc_arguments call1) = Some args1 →
  json_loads (tc_arguments call2) = Some args2 →
  ∃ st',
    chat user_message now (m1 :: m2 :: final :: rest) st
    = (Ret (content final), st') ∧
    dispatched st'
    = dispatched st ++ [ (tc_name call1, args1); (tc_name call2, args2) ] ∧
    messages st'
    = messages st ++
      [ User user_message;
        AssistantObject m1;
        Tool (tc_id call1) (_call_tool (tc_name call1) args1 st);
        AssistantObject m2;
        Tool (tc_id call2) (_call_tool (tc_name call2) args2 st);
        Assistant (content final) ] ∧
    length (messages st') = (length (messages st) + 6)%nat ∧
    length (messages st')
    = (length (messages (append_message (User user_message) st)) + 5)%nat.
Proof.
  intros H1 H2 H3 Ha1 Ha2. unfold chat.
  rewrite tool_loop_unfold, H1. cbn -[tool_loop]. rewrite Ha1.
  rewrite tool_loop_unfold, H2. cbn -[tool_loop]. rewrite Ha2.
  rewrite tool_loop_unfold, H3.
  eexists. split; [reflexivity|]. simpl.
  split; [by rewrite <- app_assoc|].
  split; [by repeat rewrite <- app_assoc|].
  repeat rewrite length_app. simpl. lia.
Qed.

End Chat.
End AgentFacts.

(* ================================================================== *)
(** * The theorems at the scenarios                                    *)
(* ================================================================== *)

Module Examples.
Import Mbta Agent Spec Scenario MbtaFacts AgentFacts.

Lemma get_next_train_has_data_witness :
  ∃ preds r' has_data,
    dict_get "predictions" harvard_predictions
    = Some (JList (map prediction_dict preds)) ∧
    get_next_train "place-harsq" (Some "Red") None harvard_response harvard_now
    = Ret r' ∧
    dict_get "has_data" r' = Some (JBool has_data).
Proof.
  destruct (get_next_train_has_data "place-harsq" (Some "Red") None
              harvard_response harvard_now harvard_predictions)
    as (preds & r' & has_data & message & Hp & Hr' & Hd & _).
  - vm_compute. reflexivity.
  - reflexivity.
  - exists preds, r', has_data. repeat split; assumption.
Defined.


Lemma wrappers_pass_error_through_witness :
  get_next_train "place-harsq" (Some "Red") None failed_response harvard_now
  = Ret failed_predictions ∧
  get_both_directions "place-harsq" "Red" failed_response harvard_now
  = Ret failed_predictions ∧
  dict_mem "has_data" failed_predictions = false.
Proof.
  destruct (wrappers_pass_error_through "place-harsq" (Some "Red") None
              failed_response harvard_now failed_predictions)
    as (Hnext & Hboth & Hno & _).
  - vm_compute. reflexivity.
  - reflexivity.
  - split; [exact Hnext|]. split; [|exact Hno].
    apply Hboth; reflexivity.
Defined.

Lemma get_both_directions_groups_witness :
  ∃ preds,
    dict_get "predictions" harvard_predictions
    = Some (JList (map prediction_dict preds)) ∧
    (preds ≠ [] →
     ∃ r' directions,
       get_both_directions "place-harsq" "Red" harvard_response harvard_now
       = Ret r' ∧
       dict_get "has_data" r' = Some (JBool true) ∧
       dict_get "directions" r' = Some (JDict directions)).
Proof.
  destruct (proj1 get_both_directions_groups "place-harsq" "Red"
              harvard_response harvard_now harvard_predictions)
    as (preds & Hp & Hgroups).
  - vm_compute. reflexivity.
  - reflexivity.
  - exists preds. split; [exact Hp|]. intros Hne.
    destruct (Hgroups Hne) as (r' & directions & Hr' & Hd & Hdirs & _).
    exists r', directions. repeat split; assumption.
Defined.

(** Against C5 as it is stated: a 204 is a success status, and
    [get_routes] returns an error for it. *)
Lemma error_on_success_status :
  ((200 <=? status_code no_content_response)
   && (status_code no_content_response <? 300) = true) ∧
  get_routes "0,1" no_content_response = [ ("error", JStr "API 错误: 204") ] ∧
  dict_mem "error" (get_routes "0,1" no_content_response) = true.
Proof. repeat split; vm_compute; reflexivity. Qed.

(** Against C6 as it is stated: for the query [" Park"], Park Street is
    among the results although its name, in lower case, does not contain
    the query in lower case; the code strips the query first. *)
Lemma search_strips_query :
  search_stops " Park" park_response
  = [ ("query", JStr " Park");
      ("count", JInt 1);
      ("results",
       JList [ JDict [ ("id", JStr "place-pktrm"); ("name", JStr "Park Street") ] ]) ] ∧
  is_substring (str_lower " Park") (str_lower "Park Street") = false ∧
  is_substring (str_strip (str_lower " Park")) (str_lower "Park Street") = true.
Proof. repeat split; vm_compute; reflexivity. Qed.

Lemma alice_known_preferences : known_preferences (user_memory alice).
Proof. intros key. apply default_preferences_known. Defined.

Lemma set_preference_known_keys_witness :
  set_preference "favourite_colour" (JStr "red") alice = (false, alice) ∧
  ∃ st',
    set_preference "home_station" (JStr "place-harsq") alice = (true, st') ∧
    preferences (user_memory st') !! "home_station" = Some (JStr "place-harsq") ∧
    saves st' = 1%nat.
Proof.
  destruct (set_preference_known_keys "favourite_colour" (JStr "red") alice
              alice_known_preferences) as [Hunknown _].
  destruct (set_preference_known_keys "home_station" (JStr "place-harsq") alice
              alice_known_preferences) as [_ Hknown].
  split.
  - apply Hunknown. vm_compute. intros Hin.
    repeat (apply elem_of_cons in Hin as [Hin|Hin]; [discriminate Hin|]).
    inversion Hin.
  - destruct Hknown as (st' & Hset & _ & Hvalue & _ & _ & _ & Hsaves).
    + vm_compute. right. left.
    + exists st'. repeat split; assumption.
Defined.

Lemma add_fact_idempotent_witness :
  add_fact "lives in Cambridge" (add_fact "lives in Cambridge" alice)
  = add_fact "lives in Cambridge" alice ∧
  count_occ String.string_dec
    (facts (user_memory (add_fact "lives in Cambridge" alice)))
    "lives in Cambridge" = 1%nat.
Proof.
  destruct (add_fact_idempotent "lives in Cambridge" alice) as (Hsame & Hone & _).
  - constructor.
  - split; assumption.
Defined.

Lemma chat_raises_on_unparsable_arguments_witness :
  (chat "Which lines are running?" "2024-01-15T10:05:00" cut_short alice).1
  = Raise JSONDecodeError.
Proof.
  rewrite (chat_raises_on_unparsable_arguments
             "Which lines are running?" "2024-01-15T10:05:00"
             (call_routes "call_1" "{") [answer]
             {| tc_id := "call_1"; tc_name := "get_routes"; tc_arguments := "{" |}
             [] alice); reflexivity.
Defined.

(** Against C4 as it is stated: over the turn the transcript grows by
    six messages, the user's and five more. *)
Lemma chat_adds_six_messages :
  (chat "Which lines are running?" "2024-01-15T10:05:00" two_calls alice).1
  = Ret (Some "Seven lines are running.") ∧
  length (dispatched
    (chat "Which lines are running?" "2024-01-15T10:05:00" two_calls alice).2)
  = 2%nat ∧
  length (messages alice) = 1%nat ∧
  length (messages
    (chat "Which lines are running?" "2024-01-15T10:05:00" two_calls alice).2)
  = 7%nat ∧
  (7 ≠ 1 + 5)%nat.
Proof. repeat split; try (vm_compute; reflexivity). lia. Qed.

Lemma chat_two_tool_calls_witness :
  ∃ st',
    chat "Which lines are running?" "2024-01-15T10:05:00" two_calls alice
    = (Ret (Some "Seven lines are running."), st') ∧
    dispatched st' = [ ("get_routes", JDict []); ("get_routes", JDict []) ] ∧
    length (messages st') = 7%nat.
Proof.
  destruct (chat_two_tool_calls
              "Which lines are running?" "2024-01-15T10:05:00"
              (call_routes "call_1" "{}") (call_routes "call_2" "{}") answer []
              {| tc_id := "call_1"; tc_name := "get_routes"; tc_arguments := "{}" |}
              {| tc_id := "call_2"; tc_name := "get_routes"; tc_arguments := "{}" |}
              (JDict []) (JDict []) alice)
    as (st' & Hchat & Hcalls & _ & Hlen & _); try reflexivity.
  exists st'. split; [exact Hchat|]. split; [exact Hcalls | exact Hlen].
Defined.

End Examples.

(* ================================================================== *)
(** * More of the transit data client                                  *)
(* ================================================================== *)

Module MbtaMore.
Import Mbta Spec SpecMore PyFacts MbtaFacts.

(** ** Rounding and direction names *)

Lemma round_half_even_near (num den : Z) :
  0 < den → 2 * Z.abs (den * round_half_even num den - num) ≤ den.
Proof.
  intros Hden. unfold round_half_even.
  pose proof (Z.div_mod num den ltac:(lia)) as Hdm.
  pose proof (Z.mod_pos_bound num den Hden) as Hr.
  destruct (Z.ltb_spec (2 * (num mod den)) den);
    [|destruct (Z.ltb_spec den (2 * (num mod den)));
      [|destruct (Z.even (num / den))]]; nia.
Qed.

Lemma round_half_even_nonneg (num den : Z) :
  0 ≤ num → 0 < den → 0 ≤ round_half_even num den.
Proof.
  intros Hnum Hden. unfold round_half_even.
  pose proof (Z.div_pos num den Hnum Hden).
  repeat destruct (_ <? _); try destruct (Z.even _); lia.
Qed.

Lemma route_directions_keys (route : string) :
  route_directions route = [] ∨ map fst (route_directions route) = [0; 1].
Proof.
  unfold route_directions, ROUTE_DIRECTIONS. cbv [List.find fst].
  repeat (destruct (String.eqb _ route); [right; reflexivity|]).
  left. reflexivity.
Qed.

(** X1: a direction id other than 0 and 1 has no name in the table, for
    any route: it is shown as the word for direction followed by the
    number. *)
Theorem direction_name_fallback (route : string) (direction_id : Z) :
  direction_id ≠ 0 → direction_id ≠ 1 →
  direction_name route direction_id = "方向" +:+ dec direction_id.
Proof.
  intros H0 H1. unfold direction_name.
  destruct (route_directions_keys route) as [-> | Hkeys]; [done|].
  destruct (route_directions route) as [|[k0 v0] [|[k1 v1] [|? ?]]];
    try discriminate Hkeys.
  injection Hkeys as -> ->. cbv [List.find fst].
  rewrite (proj2 (Z.eqb_neq 0 direction_id)) by lia.
  rewrite (proj2 (Z.eqb_neq 1 direction_id)) by lia.
  reflexivity.
Qed.

Section Client.
Context `{PyLib}.

(** ** get_predictions *)

(** X2: where the float quotient rounds as the exact one (waits below
    2^26 minutes, some 127 years), every entry of a successful
    [get_predictions] comes from an upstream record whose time is not
    before [now], and when the wait to that time is below the horizon
    its [minutes] are zero or more and within half a minute of the
    wait. *)
Theorem predictions_minutes_bounds (stop_id : string)
    (route_id direction : option string)
    (resp : response prediction_resource) (now : Z) (r : pydict) :
  rounds_as_exact →
  get_predictions stop_id route_id direction resp now = Ret r →
  dict_mem "error" r = false →
  ∃ preds,
    dict_get "predictions" r = Some (JList (map prediction_dict preds)) ∧
    Forall (λ p,
      ∃ pred s dt offset,
        pred ∈ data_of resp ∧ chosen_time pred s ∧
        fromisoformat (replace_char "Z" "+00:00" s) = Some dt ∧
        utcoffset_us dt = Some offset ∧
        now ≤ wall_us dt - offset ∧
        (wall_us dt - offset - now < float_horizon →
         0 ≤ minutes p ∧
         2 * Z.abs (60000000 * minutes p - (wall_us dt - offset - now))
         ≤ 60000000)) preds.
Proof.
  intros Hexact Hr Herr.
  destruct (get_predictions_inv _ _ _ _ _ _ Hr)
    as [[_ ->] | (_ & _ & preds & Hp & _ & _ & Hfrom & _)].
  { discriminate Herr. }
  exists preds. split; [assumption|].
  eapply Forall_impl; [exact Hfrom|]. simpl.
  intros p (pred & Hin & s & dt & offset & Hs & Hdt & Hoff & Hge & Hmin & _).
  exists pred, s, dt, offset.
  split; [assumption|]. split; [assumption|]. split; [assumption|].
  split; [assumption|]. split; [assumption|].
  intros Hbelow. rewrite Hmin, Hexact by lia. split.
  - apply round_half_even_nonneg; lia.
  - apply round_half_even_near. lia.
Qed.

Lemma prediction_of_raises (now : Z) (pred : prediction_resource) (e : exn) :
  prediction_of now pred = Raise e → e = ValueError ∨ e = TypeError.
Proof.
  unfold prediction_of.
  destruct (truthy_str _); simpl; [|discriminate].
  destruct (fromisoformat _) as [dt|]; [|intros [= <-]; by left].
  destruct (utcoffset_us dt); [|intros [= <-]; by right].
  by destruct (_ <? _).
Qed.

Lemma prediction_of_bad_time (now : Z) (pred : prediction_resource) (s : string) :
  chosen_time pred s →
  (fromisoformat (replace_char "Z" "+00:00" s) = None ∨
   ∃ dt, fromisoformat (replace_char "Z" "+00:00" s) = Some dt ∧
         utcoffset_us dt = None) →
  ∃ e, prediction_of now pred = Raise e.
Proof.
  intros [Hne Hs] Hbad. unfold prediction_of.
  assert (or_str (attr_arrival_time pred) (attr_departure_time pred) = Some s)
    as ->.
  { unfold or_str. destruct Hs as [-> | [[-> | ->] ->]]; simpl; try done.
    by destruct (String.eqb_spec s ""). }
  simpl. destruct (String.eqb_spec s ""); [done|]. simpl.
  destruct Hbad as [-> | (dt & -> & ->)]; by eexists.
Qed.

Lemma collect_predictions_raises (now : Z) (data : list prediction_resource) :
  ∀ acc,
    (∃ pred e, pred ∈ data ∧ prediction_of now pred = Raise e) →
    ∃ e, collect_predictions now data acc = Raise e ∧
         (e = ValueError ∨ e = TypeError).
Proof.
  induction data as [|pred0 data IH]; intros acc (pred & e & Hin & Hraise).
  - inversion Hin.
  - simpl. destruct (prediction_of now pred0) as [entry|e0] eqn:H0.
    + simpl. apply IH. exists pred, e. split; [|done].
      inversion Hin; subst; [congruence | done].
    + exists e0. split; [done|]. by eapply prediction_of_raises.
Qed.

(** X3: one upstream record whose timestamp does not parse, or parses
    without a UTC offset, makes the whole call raise, whatever the other
    records are; so do both wrappers. *)
Theorem bad_timestamp_fails_the_call (stop_id : string)
    (route_id direction : option string)
    (resp : response prediction_resource) (now : Z)
    (pred : prediction_resource) (s : string) :
  status_code resp = 200 →
  pred ∈ data_of resp →
  chosen_time pred s →
  (fromisoformat (replace_char "Z" "+00:00" s) = None ∨
   ∃ dt, fromisoformat (replace_char "Z" "+00:00" s) = Some dt ∧
         utcoffset_us dt = None) →
  ∃ e,
    (e = ValueError ∨ e = TypeError) ∧
    get_predictions stop_id route_id direction resp now = Raise e ∧
    get_next_train stop_id route_id direction resp now = Raise e ∧
    (∀ route, route_id = Some route → direction = None →
       get_both_directions stop_id route resp now = Raise e).
Proof.
  intros H200 Hin Hs Hbad.
  destruct (prediction_of_bad_time now pred s Hs Hbad) as [e0 He0].
  destruct (collect_predictions_raises now (data_of resp) []) as (e & He & Hkind).
  { by exists pred, e0. }
  assert (get_predictions stop_id route_id direction resp now = Raise e) as Hp.
  { unfold get_predictions. rewrite H200. simpl.
    destruct (data_of resp) as [|p0 data] eqn:Hdata; [inversion Hin|].
    by rewrite He. }
  exists e. split; [done|]. split; [done|]. split.
  - unfold get_next_train. by rewrite Hp.
  - intros route -> ->. unfold get_both_directions. by rewrite Hp.
Qed.

(** ** The wrappers *)

(** X4: the wrappers raise nothing of their own: whenever
    [get_predictions] returns, with an error or without, [get_next_train]
    and [get_both_directions] return. *)
Theorem wrappers_return (stop_id : string) (route_id direction : option string)
    (resp : response prediction_resource) (now : Z) (r : pydict) :
  get_predictions stop_id route_id direction resp now = Ret r →
  (∃ r', get_next_train stop_id route_id direction resp now = Ret r') ∧
  (∀ route, route_id = Some route → direction = None →
     ∃ r', get_both_directions stop_id route resp now = Ret r').
Proof.
  intros Hr.
  destruct (get_predictions_inv _ _ _ _ _ _ Hr)
    as [[_ ->] | (_ & Hno & preds & Hp & _)].
  - split.
    + eexists. unfold get_next_train. rewrite Hr. reflexivity.
    + intros route -> ->. eexists. unfold get_both_directions. rewrite Hr.
      reflexivity.
  - split.
    + destruct (next_train_of_predictions stop_id route_id direction r preds Hno Hp)
        as (r' & _ & Hr' & _).
      exists r'. unfold get_next_train. by rewrite Hr.
    + intros route -> ->.
      destruct (both_directions_of_predictions stop_id route r preds Hno Hp)
        as (r' & Hr' & _).
      exists r'. unfold get_both_directions. by rewrite Hr.
Qed.

(** X5: [get_both_directions] sets [has_data] to false exactly when the
    prediction list is empty, and its [directions] dict is then empty. *)
Theorem get_both_directions_has_data (stop_id route_id : string)
    (resp : response prediction_resource) (now : Z) (r : pydict) :
  get_predictions stop_id (Some route_id) None resp now = Ret r →
  dict_mem "error" r = false →
  ∃ preds r' (has_data : bool) directions message,
    dict_get "predictions" r = Some (JList (map prediction_dict preds)) ∧
    get_both_directions stop_id route_id resp now = Ret r' ∧
    dict_get "has_data" r' = Some (JBool has_data) ∧
    dict_get "directions" r' = Some (JDict directions) ∧
    dict_get "message" r' = Some (JStr message) ∧
    (has_data = false ↔ preds = []) ∧
    (directions = [] ↔ preds = []).
Proof.
  intros Hr Herr.
  destruct (get_predictions_inv _ _ _ _ _ _ Hr)
    as [[_ ->] | (_ & _ & preds & Hp & _)].
  { discriminate Herr. }
  unfold get_both_directions. rewrite Hr. cbn [mbind pyres_bind].
  destruct preds as [|p preds].
  - unfold both_directions_of, subscript. rewrite Herr, Hp. simpl.
    eexists [], _, false, [], _. repeat split; reflexivity.
  - destruct (group_directions_spec (p :: preds) [])
      as (out & Hout & _ & Hinfo & Hget); [constructor | constructor |].
    destruct (direction_lines_total out Hinfo) as [lines Hlines].
    unfold both_directions_of, subscript. rewrite Herr, Hp.
    cbn [mbind pyres_bind truthy map negb iterate].
    change (prediction_dict p :: map prediction_dict preds)
      with (map prediction_dict (p :: preds)).
    rewrite Hout. cbn [mbind pyres_bind]. rewrite Hlines. cbn [mbind pyres_bind].
    eexists (p :: preds), _, true, out, _.
    split; [reflexivity|]. split; [reflexivity|]. split; [reflexivity|].
    split; [reflexivity|]. split; [reflexivity|].
    split; [split; discriminate|]. split; [|discriminate].
    intros ->. specialize (Hget (Mbta.direction p)). simpl in Hget.
    unfold first_of in Hget. simpl in Hget.
    rewrite String.eqb_refl in Hget. discriminate.
Qed.

(** X6: for one response and one clock, the train that [get_next_train]
    reports without a direction filter is the one that
    [get_both_directions] lists under that train's direction. *)
Theorem next_train_among_directions (stop_id route_id : string)
    (resp : response prediction_resource) (now : Z) (r : pydict) :
  get_predictions stop_id (Some route_id) None resp now = Ret r →
  dict_mem "error" r = false →
  dict_get "predictions" r ≠ Some (JList []) →
  ∃ next both directions d minutes time,
    get_next_train stop_id (Some route_id) None resp now = Ret next ∧
    get_both_directions stop_id route_id resp now = Ret both ∧
    dict_get "direction" next = Some (JStr d) ∧
    dict_get "minutes" next = Some (JInt minutes) ∧
    dict_get "time" next = Some (JStr time) ∧
    dict_get "directions" both = Some (JDict directions) ∧
    dict_get d directions
    = Some (JDict [ ("minutes", JInt minutes); ("time", JStr time) ]).
Proof.
  intros Hr Herr Hne.
  destruct (get_predictions_inv _ _ _ _ _ _ Hr)
    as [[_ ->] | (_ & _ & preds & Hp & _)].
  { discriminate Herr. }
  destruct preds as [|p preds]; [done|].
  destruct (next_train_of_predictions stop_id (Some route_id) None r _ Herr Hp)
    as (next & _ & Hnext & _ & _ & _ & _ & Hd & Hm & Ht).
  destruct (both_directions_of_predictions stop_id route_id r _ Herr Hp)
    as (both & Hboth & _ & out & Hout & _ & Hdirs).
  destruct (group_directions_spec (p :: preds) [])
    as (out' & Hout' & _ & _ & Hget); [constructor | constructor |].
  assert (out' = out) as -> by congruence.
  exists next, both, out, (Mbta.direction p), (minutes p), (time p).
  unfold get_next_train, get_both_directions. rewrite Hr.
  repeat split; try assumption.
  rewrite Hget. simpl. unfold first_of. simpl. by rewrite String.eqb_refl.
Qed.

(** ** get_alerts *)

Lemma sort_by_ext {A : Type} (le1 le2 : A → A → bool) (l : list A) :
  (∀ a b, le1 a b = le2 a b) → sort_by le1 l = sort_by le2 l.
Proof.
  intros Hext. induction l as [|x l IH]; simpl; [done|]. rewrite IH.
  generalize (sort_by le2 l). intros l'.
  induction l' as [|y l' IH']; simpl; [done|]. by rewrite Hext, IH'.
Qed.

Lemma sort_by_in_order {A : Type} (le : A → A → bool) (l : list A) :
  (∀ a b, a ∈ l → b ∈ l → le a b = true) → sort_by le l = l.
Proof.
  induction l as [|x l IH]; intros Hle; simpl; [done|].
  rewrite IH by (intros a b Ha Hb; apply Hle; by right).
  destruct l as [|y l]; simpl; [done|].
  rewrite Hle; [done | left | right; left].
Qed.

(** The alerts of a response, most severe first. *)
Lemma sorted_alerts (data : list alert_resource) :
  let alerts := sort_by (λ a b, severity b <=? severity a) (map alert_of data) in
  Permutation alerts (map alert_of data) ∧
  StronglySorted (λ a b, severity b ≤ severity a) alerts.
Proof.
  simpl.
  rewrite (sort_by_ext _ (λ a b, - severity a <=? - severity b))
    by (intros a b; destruct (Z.leb_spec (severity b) (severity a)),
          (Z.leb_spec (- severity a) (- severity b)); lia).
  split; [apply (sort_by_perm (λ a, - severity a))|].
  pose proof (sort_by_sorted (λ a, - severity a) (map alert_of data)) as Hs.
  induction Hs as [|a l _ IH Hall]; constructor; [done|].
  eapply Forall_impl; [exact Hall|]. simpl. intros b Hb. lia.
Qed.

(** X7: a successful [get_alerts] sets [has_alerts] to false exactly when
    the upstream sends no alert, and its list of alerts is then empty. *)
Theorem get_alerts_has_alerts (route_id : option string)
    (resp : response alert_resource) :
  status_code resp = 200 →
  ∃ (has_alerts : bool) alerts message,
    dict_get "has_alerts" (get_alerts route_id resp) = Some (JBool has_alerts) ∧
    dict_get "alerts" (get_alerts route_id resp) = Some (JList alerts) ∧
    dict_get "message" (get_alerts route_id resp) = Some (JStr message) ∧
    (has_alerts = false ↔ data_of resp = []) ∧
    (alerts = [] ↔ data_of resp = []).
Proof.
  intros H200. unfold get_alerts. rewrite H200. simpl.
  destruct (sorted_alerts (data_of resp)) as [Hperm _]. simpl in Hperm.
  destruct (sort_by _ _) as [|a alerts] eqn:Hsort.
  - apply Permutation_nil in Hperm. apply map_eq_nil in Hperm.
    eexists false, [], _. repeat split; try reflexivity; done.
  - assert (data_of resp ≠ []) as Hne.
    { intros Hnil. rewrite Hnil in Hperm. simpl in Hperm.
      symmetry in Hperm. by apply Permutation_nil in Hperm. }
    eexists true, _, _. split; [reflexivity|]. split; [reflexivity|].
    split; [reflexivity|]. split; split; try done.
Qed.

(** In a sorted list, what a cut leaves out comes after what it keeps. *)
Lemma sorted_take_drop {A : Type} (R : A → A → Prop) (l : list A) :
  StronglySorted R l →
  ∀ n, Forall (λ a, Forall (R a) (drop n l)) (take n l).
Proof.
  induction 1 as [|x l _ IH Hall]; intros [|n]; simpl; try constructor.
  - by apply Forall_drop.
  - apply IH.
Qed.

(** X8: when the upstream sends alerts, [alert_count] is their number,
    while the list holds the ten most severe of them at most, most severe
    first, each built from an upstream alert: an alert that is left out
    is no more severe than any alert in the list. *)
Theorem get_alerts_sorted_capped (route_id : option string)
    (resp : response alert_resource) :
  status_code resp = 200 →
  data_of resp ≠ [] →
  ∃ alerts,
    dict_get "alert_count" (get_alerts route_id resp)
    = Some (JInt (Z.of_nat (length (data_of resp)))) ∧
    dict_get "alerts" (get_alerts route_id resp)
    = Some (JList (map alert_dict alerts)) ∧
    length alerts = Nat.min 10 (length (data_of resp)) ∧
    StronglySorted (λ a b, severity b ≤ severity a) alerts ∧
    Forall (λ a, ∃ res, res ∈ data_of resp ∧ a = alert_of res) alerts ∧
    ∃ left_out,
      Permutation (alerts ++ left_out) (map alert_of (data_of resp)) ∧
      Forall (λ a, Forall (λ b, severity b ≤ severity a) left_out) alerts.
Proof.
  intros H200 Hne. unfold get_alerts. rewrite H200. simpl.
  destruct (sorted_alerts (data_of resp)) as [Hperm Hsorted]. simpl in *.
  assert (length (sort_by (λ a b, severity b <=? severity a)
                    (map alert_of (data_of resp)))
          = length (data_of resp)) as Hlen
    by (by rewrite Hperm, length_map).
  destruct (sort_by _ _) as [|a alerts] eqn:Hsort.
  { destruct (data_of resp); [done | discriminate Hlen]. }
  exists (take 10 (a :: alerts)). split; [by rewrite Hlen|].
  split; [reflexivity|]. split; [by rewrite length_take, Hlen|].
  split.
  - clear -Hsorted. revert Hsorted. generalize (a :: alerts). intros l Hs.
    generalize 10%nat. induction Hs as [|x l' _ IH Hall]; intros [|n]; simpl;
      try constructor; [apply IH | by apply Forall_take].
  - split.
    + apply Forall_take. rewrite List.Forall_forall. intros b Hb.
      eapply Permutation_in in Hb; [|exact Hperm].
      apply List.in_map_iff in Hb as (res & <- & Hres).
      exists res. split; [by apply list_elem_of_In | done].
    + exists (drop 10 (a :: alerts)). split.
      * by rewrite take_drop.
      * exact (sorted_take_drop _ _ Hsorted 10%nat).
Qed.

(** X9: alerts of one severity come back in upstream order: when all the
    alerts have the same severity, the list is the first ten as sent. *)
Theorem get_alerts_keeps_order (route_id : option string)
    (resp : response alert_resource) (level : Z) :
  status_code resp = 200 →
  data_of resp ≠ [] →
  Forall (λ res, default 0 (attr_severity res) = level) (data_of resp) →
  dict_get "alerts" (get_alerts route_id resp)
  = Some (JList (map alert_dict (take 10 (map alert_of (data_of resp))))).
Proof.
  intros H200 Hne Hlevel. unfold get_alerts. rewrite H200. simpl.
  rewrite sort_by_in_order.
  - destruct (data_of resp); [done | reflexivity].
  - intros a b Ha Hb.
    apply list_elem_of_fmap in Ha as (ra & -> & Hra).
    apply list_elem_of_fmap in Hb as (rb & -> & Hrb).
    rewrite List.Forall_forall in Hlevel. simpl.
    rewrite (Hlevel ra), (Hlevel rb) by (by apply list_elem_of_In).
    apply Z.leb_refl.
Qed.

(** ** get_stops and search_stops *)

Lemma first_id_found (res : stop_resource) (data : list stop_resource) :
  res ∈ data → is_Some (first_id (stop_name res) data).
Proof.
  unfold first_id. induction 1 as [res data | res r0 data _ IH]; simpl.
  - rewrite String.eqb_refl. by eexists.
  - destruct (String.eqb _ _); [by eexists | exact IH].
Qed.

Lemma first_id_in (name i : string) (data : list stop_resource) :
  first_id name data = Some i → name ∈ map stop_name data.
Proof.
  unfold first_id. induction data as [|r data IH]; simpl; [discriminate|].
  destruct (String.eqb_spec (stop_name r) name) as [<-|]; [intros _; left|].
  intros Hf. right. by apply IH.
Qed.

(** X10: [get_stops] loses no station: every upstream stop name is in the
    result, and the result is never longer than what the upstream sent. *)
Theorem get_stops_complete (route_id : string) (resp : response stop_resource) :
  status_code resp = 200 →
  ∃ stops,
    dict_get "stops" (get_stops route_id resp) = Some (JList (map stop_dict stops)) ∧
    (∀ res, res ∈ data_of resp → stop_name res ∈ map s_name stops) ∧
    (length stops ≤ length (data_of resp))%nat.
Proof.
  intros H200. unfold get_stops. rewrite H200. simpl.
  eexists. split; [reflexivity|]. rewrite fold_stops_step.
  destruct (dedup_inv_fold (λ _, true) (data_of resp) [] _ (dedup_inv_init _))
    as (_ & Hnd & Hout). simpl in Hnd, Hout.
  set (stops := (fold_left _ _ _).2) in *. split.
  - intros res Hres. destruct (first_id_found res _ Hres) as [i Hi].
    apply list_elem_of_fmap. exists {| s_id := i; s_name := stop_name res |}.
    split; [done|]. apply Hout. done.
  - rewrite <- (length_map s_name stops), <- (length_map stop_name (data_of resp)).
    apply NoDup_ListNoDup in Hnd.
    apply (List.NoDup_incl_length Hnd). intros n Hn.
    apply list_elem_of_In, list_elem_of_fmap in Hn as (s & -> & Hs).
    apply Hout in Hs as [_ Hs]. apply list_elem_of_In. by eapply first_id_in.
Qed.

(** The two loops side by side: what [search_stops] has seen and kept is
    what [get_stops] has, restricted to the names that pass. *)
Lemma dedup_step_filter (keep : string → bool) (data : list stop_resource) :
  ∀ all kept : gset string * list stop,
    (∀ n, n ∈ kept.1 ↔ n ∈ all.1 ∧ keep n = true) →
    kept.2 = List.filter (λ s, keep (s_name s)) all.2 →
    (fold_left (dedup_step keep) data kept).2
    = List.filter (λ s, keep (s_name s))
        (fold_left (dedup_step (λ _, true)) data all).2.
Proof.
  induction data as [|res data IH]; intros all kept Hseen Hout; simpl; [done|].
  apply IH.
  - intros n. unfold dedup_step.
    destruct (bool_decide (stop_name res ∈ all.1)) eqn:Hall;
      destruct (bool_decide (stop_name res ∈ kept.1)) eqn:Hkept;
      destruct (keep (stop_name res)) eqn:Hkeep; simpl;
      try apply bool_decide_eq_true in Hall;
      try apply bool_decide_eq_false in Hall;
      try apply bool_decide_eq_true in Hkept;
      try apply bool_decide_eq_false in Hkept;
      rewrite ?elem_of_union, ?elem_of_singleton, ?Hseen;
      try (apply Hseen in Hkept as [? ?]);
      try (exfalso; apply Hkept, Hseen; done);
      try (exfalso; congruence);
      try tauto.
    + split; [intros [-> | [? ?]]; tauto | intros [[-> | ?] ?]; tauto].
    + split; [intros [? ?]; tauto | intros [[-> | ?] ?]; [congruence | tauto]].
  - unfold dedup_step.
    destruct (bool_decide (stop_name res ∈ all.1)) eqn:Hall;
      destruct (bool_decide (stop_name res ∈ kept.1)) eqn:Hkept;
      destruct (keep (stop_name res)) eqn:Hkeep; simpl;
      try apply bool_decide_eq_true in Hall;
      try apply bool_decide_eq_false in Hall;
      try apply bool_decide_eq_true in Hkept;
      try apply bool_decide_eq_false in Hkept;
      rewrite ?List.filter_app; simpl; rewrite ?Hkeep, ?app_nil_r;
      try (apply Hseen in Hkept as [? ?]);
      try (exfalso; apply Hkept, Hseen; done);
      try (exfalso; congruence);
      try done.
    by rewrite Hout.
Qed.

(** The matches of [search_stops] are the stops of [get_stops] that pass
    the test, in their order. *)
Lemma search_matches_filter (query : string) (data : list stop_resource) :
  search_matches query data
  = List.filter
      (λ s, is_substring (str_strip (str_lower query)) (str_lower (s_name s)))
      (fold_left stops_step data (∅, [])).2.
Proof.
  unfold search_matches. rewrite fold_stops_step.
  set (keep := λ n, is_substring (str_strip (str_lower query)) (str_lower n)).
  change (search_step (str_strip (str_lower query))) with (dedup_step keep).
  rewrite (dedup_step_filter keep data (∅, []) (∅, [])); [done | | done].
  intros n. simpl. rewrite elem_of_empty. tauto.
Qed.

(** X11: for one upstream stop list, the results of [search_stops] are the
    stops of [get_stops] whose lowercased name contains the stripped,
    lowercased query, in the same order; [count] is their number. *)
Theorem search_filters_stops (query route_id : string)
    (resp : response stop_resource) :
  status_code resp = 200 →
  ∃ stops,
    dict_get "stops" (get_stops route_id resp) = Some (JList (map stop_dict stops)) ∧
    dict_get "results" (search_stops query resp)
    = Some (JList (map stop_dict
        (List.filter
           (λ s, is_substring (str_strip (str_lower query)) (str_lower (s_name s)))
           stops))) ∧
    dict_get "count" (search_stops query resp)
    = Some (JInt (Z.of_nat (length
        (List.filter
           (λ s, is_substring (str_strip (str_lower query)) (str_lower (s_name s)))
           stops)))).
Proof.
  intros H200. unfold get_stops, search_stops. rewrite H200. simpl.
  exists (fold_left stops_step (data_of resp) (∅, [])).2.
  split; [reflexivity|].
  rewrite search_matches_filter. split; reflexivity.
Qed.

Lemma is_substring_empty (hay : string) : is_substring "" hay = true.
Proof. by destruct hay. Qed.

(** X12: a query that is blank once stripped matches every stop:
    [search_stops] then returns the whole list of [get_stops]. *)
Theorem blank_query_matches_all (query route_id : string)
    (resp : response stop_resource) :
  status_code resp = 200 →
  str_strip (str_lower query) = "" →
  ∃ stops,
    dict_get "stops" (get_stops route_id resp) = Some (JList (map stop_dict stops)) ∧
    dict_get "results" (search_stops query resp) = Some (JList (map stop_dict stops)).
Proof.
  intros H200 Hblank. unfold get_stops, search_stops. rewrite H200. simpl.
  exists (fold_left stops_step (data_of resp) (∅, [])).2.
  split; [reflexivity|].
  rewrite search_matches_filter, Hblank. do 3 f_equal.
  induction (fold_left stops_step (data_of resp) (∅, [])).2 as [|s stops IH];
    simpl; [done|].
  by rewrite is_substring_empty, IH.
Qed.

End Client.
End MbtaMore.

(* ================================================================== *)
(** * More of the agent                                                *)
(* ================================================================== *)

Module AgentMoreFacts.
Import Agent AgentMore Spec SpecMore AgentFacts.

(** ** Paths *)

Lemma string_length_app (s t : string) :
  String.length (s +:+ t) = (String.length s + String.length t)%nat.
Proof. induction s as [|c s IH]; simpl; [done | by rewrite IH]. Qed.

Lemma string_app_inj_r (t s1 s2 : string) : s1 +:+ t = s2 +:+ t → s1 = s2.
Proof.
  revert s2. induction s1 as [|c s1 IH]; intros [|c2 s2] Heq; simpl in *.
  - done.
  - apply (f_equal String.length) in Heq.
    rewrite ?string_length_app in Heq. simpl in Heq.
    rewrite ?string_length_app in Heq. lia.
  - apply (f_equal String.length) in Heq.
    rewrite ?string_length_app in Heq. simpl in Heq.
    rewrite ?string_length_app in Heq. lia.
  - injection Heq as -> Heq. f_equal. by apply IH.
Qed.

Lemma os_path_join_memory (file : string) :
  os_path_join MEMORY_DIR file =
  if String.prefix "/" file then file else "memory/" +:+ file.
Proof. unfold os_path_join, MEMORY_DIR. by destruct (String.prefix _ _). Qed.

(** The text of the path determines the user id. *)
Lemma memory_path_inj (user1 user2 : string) :
  memory_path user1 = memory_path user2 → user1 = user2.
Proof.
  unfold memory_path. rewrite !os_path_join_memory.
  destruct (String.prefix "/" (user1 +:+ ".json")) eqn:H1,
           (String.prefix "/" (user2 +:+ ".json")) eqn:H2.
  - apply string_app_inj_r.
  - intros Heq. rewrite Heq in H1. discriminate.
  - intros Heq. rewrite <- Heq in H2. discriminate.
  - intros [= Heq]. apply (string_app_inj_r ".json"). exact Heq.
Qed.

Lemma _get_memory_path_user (st : state) :
  _get_memory_path st = memory_path (user_id st).
Proof. done. Qed.

(** ** Preferences *)

(** X13: [get_preference] reads back what [set_preference] stored: the
    value when the key was accepted, nothing when it was refused; every
    other key reads as before. *)
Theorem preference_round_trip (key : string) (value : json) (st : state) :
  get_preference key (set_preference key value st).2
  = (if (set_preference key value st).1 then Some value else None) ∧
  ∀ other, other ≠ key →
    get_preference other (set_preference key value st).2
    = get_preference other st.
Proof.
  unfold set_preference, get_preference.
  destruct (bool_decide _) eqn:Hk; simpl.
  - split; [by rewrite lookup_insert_eq|].
    intros other Hne. by rewrite lookup_insert_ne.
  - apply bool_decide_eq_false in Hk. split; [|done].
    destruct (preferences (user_memory st) !! key) eqn:Hl; [|done].
    exfalso. apply Hk. by eexists.
Qed.

(** ** Tools *)

Section Dispatch.
Context `{PyLib}.

Lemma _call_tool_tools (name : string) (arguments : json) (st st' : state) :
  tools st' = tools st →
  _call_tool name arguments st' = _call_tool name arguments st.
Proof. intros Ht. unfold _call_tool. by rewrite Ht. Qed.

(** X14: a tool dispatched right after it is registered is the function
    just given, whatever was registered under the name before; the other
    names dispatch as before, and the schema list grows by one even when
    the name was already there. *)
Theorem register_then_dispatch (name : string) (func : tool) (schema : json)
    (kwargs : pydict) (st : state) :
  _call_tool name (JDict kwargs) (register_tool name func schema st)
  = match func kwargs with
    | Returns result => json_dumps false result
    | Raises str_e => json_dumps true (JDict [ ("error", JStr str_e) ])
    end ∧
  (∀ other arguments, other ≠ name →
     _call_tool other arguments (register_tool name func schema st)
     = _call_tool other arguments st) ∧
  tool_schemas (register_tool name func schema st) = tool_schemas st ++ [schema].
Proof.
  unfold _call_tool, register_tool. simpl. split; [|split; [|done]].
  - by rewrite lookup_insert_eq.
  - intros other arguments Hne. by rewrite lookup_insert_ne.
Qed.

(** X15: for a registered tool, arguments that are not a JSON object never
    reach the function: the call raises the [TypeError] of the
    interpreter, and the answer is an error payload with its text, which
    names the function and the type of the arguments; what a function
    raises comes back as an error payload with its text, and what it
    returns is serialised. *)
Theorem _call_tool_registered (name : string) (func : tool)
    (arguments : json) (st : state) :
  tools st !! name = Some func →
  ((∀ kwargs, arguments ≠ JDict kwargs) →
   _call_tool name arguments st
   = json_dumps true
       (JDict [ ("error",
                 JStr (callee func +:+
                       " argument after ** must be a mapping, not " +:+
                       type_name arguments)) ])) ∧
  (∀ kwargs str_e, arguments = JDict kwargs → func kwargs = Raises str_e →
   _call_tool name arguments st
   = json_dumps true (JDict [ ("error", JStr str_e) ])) ∧
  (∀ kwargs result, arguments = JDict kwargs → func kwargs = Returns result →
   _call_tool name arguments st = json_dumps false result).
Proof.
  intros Hf. unfold _call_tool. rewrite Hf. split; [|split].
  - intros Hnot. destruct arguments; try done. by destruct (Hnot d).
  - intros kwargs str_e -> ->. done.
  - intros kwargs result -> ->. done.
Qed.

End Dispatch.

Lemma register_tools_snoc (tools_config : list (string * tool * json))
    (entry : string * tool * json) (st : state) :
  register_tools (tools_config ++ [entry]) st
  = register_tool entry.1.1 entry.1.2 entry.2 (register_tools tools_config st).
Proof. unfold register_tools. by rewrite fold_left_app. Qed.

(** X16: after a batch registration each name is bound to the last
    function the batch gives it, a name the batch does not mention keeps
    its function, and every schema of the batch is appended in order. *)
Theorem register_tools_last_wins (tools_config : list (string * tool * json))
    (st : state) :
  (∀ name,
     tools (register_tools tools_config st) !! name
     = match last_registered name tools_config with
       | Some func => Some func
       | None => tools st !! name
       end) ∧
  tool_schemas (register_tools tools_config st)
  = tool_schemas st ++ map snd tools_config.
Proof.
  induction tools_config as [|entry cfg IH] using rev_ind.
  - split; [done|]. simpl. by rewrite app_nil_r.
  - destruct IH as [IHtools IHschemas]. rewrite register_tools_snoc. split.
    + intros name. unfold register_tool, last_registered. simpl.
      rewrite rev_unit. simpl.
      destruct (String.eqb_spec entry.1.1 name) as [<-|Hne]; simpl.
      * by rewrite lookup_insert_eq.
      * rewrite lookup_insert_ne by done. apply IHtools.
    + unfold register_tool. simpl. rewrite IHschemas, map_app.
      by rewrite <- app_assoc.
Qed.

(** ** User files *)

(** X17: [delete_user_memory] answers whether the user had a file; the
    user then has none and a second deletion answers no; between user ids
    of plain characters, for which different ids are different files, the
    file of every other user stays as it is. *)
Theorem delete_user_memory_spec (user : string) (files : gmap string UserMemory) :
  (delete_user_memory user files).1
  = bool_decide (is_Some (view_user_memory user files)) ∧
  view_user_memory user (delete_user_memory user files).2 = None ∧
  delete_user_memory user (delete_user_memory user files).2
  = (false, (delete_user_memory user files).2) ∧
  ∀ other,
    plain_user_id user = true → plain_user_id other = true → other ≠ user →
    view_user_memory other (delete_user_memory user files).2
    = view_user_memory other files.
Proof.
  unfold delete_user_memory, view_user_memory.
  destruct (files !! memory_path user) eqn:Hf; simpl.
  - rewrite lookup_delete_eq. split; [done|]. split; [done|]. split; [done|].
    intros other _ _ Hne. rewrite lookup_delete_ne; [done|].
    intros Heq. by apply memory_path_inj in Heq.
  - rewrite Hf. done.
Qed.

End AgentMoreFacts.

(* ================================================================== *)
(** * More of the chat loop                                            *)
(* ================================================================== *)

Module ChatFacts.
Import Agent AgentMore Spec SpecMore AgentFacts AgentMoreFacts.

Lemma correlated_app (pending : list string) (ms1 ms2 : list message) :
  correlated pending (ms1 ++ ms2)
  = correlated pending ms1 && correlated (pending_after pending ms1) ms2.
Proof.
  revert pending. induction ms1 as [|m ms1 IH]; intros pending; simpl; [done|].
  destruct m; try apply IH. rewrite IH. by rewrite andb_assoc.
Qed.

Section Chat.
Context `{PyLib}.

Lemma same_agent_refl (st : state) : same_agent st st.
Proof. by repeat split. Qed.

Lemma same_agent_trans (st1 st2 st3 : state) :
  same_agent st1 st2 → same_agent st2 st3 → same_agent st1 st3.
Proof.
  intros (? & ? & ? & ? & ? & ? & ?) (? & ? & ? & ? & ? & ? & ?).
  repeat split; congruence.
Qed.

Lemma answer_to_tools (st st' : state) (call : tool_call) :
  tools st' = tools st → answer_to st' call = answer_to st call.
Proof. intros Ht. unfold answer_to. by rewrite (_call_tool_tools _ _ _ _ Ht). Qed.

Lemma round_messages_tools (st st' : state) (m : assistant_message) :
  tools st' = tools st → round_messages st' m = round_messages st m.
Proof.
  intros Ht. unfold round_messages. f_equal.
  apply map_ext. intros c. by apply answer_to_tools.
Qed.

(** The loop over the calls of one assistant message: it answers the
    calls in their order up to the first whose arguments do not parse. *)
Lemma run_tool_calls_spec (calls : list tool_call) :
  ∀ st res st',
    run_tool_calls calls st = (res, st') →
    same_agent st st' ∧
    ∃ answered unanswered,
      calls = answered ++ unanswered ∧
      Forall parses answered ∧
      messages st' = messages st ++ map (answer_to st) answered ∧
      dispatched st'
      = dispatched st ++ map (λ call, (tc_name call, parsed call)) answered ∧
      match res with
      | Ret _ => unanswered = []
      | Raise e =>
          e = JSONDecodeError ∧
          ∃ call rest, unanswered = call :: rest ∧
                       json_loads (tc_arguments call) = None
      end.
Proof.
  induction calls as [|call calls IH]; intros st res st' Hrun; simpl in Hrun.
  - injection Hrun as <- <-. split; [apply same_agent_refl|].
    exists [], []. simpl. rewrite !app_nil_r. repeat split; constructor.
  - destruct (json_loads (tc_arguments call)) as [args|] eqn:Hargs.
    + apply IH in Hrun
        as (Hsame & answered & unanswered & -> & Hparse & Hms & Hds & Hres).
      split.
      { destruct Hsame as (? & ? & ? & ? & ? & ? & ?). by repeat split. }
      exists (call :: answered), unanswered. split; [done|].
      split; [constructor; [by eexists | done]|].
      assert (parsed call = args) as Hp by (unfold parsed; by rewrite Hargs).
      split; [|split; [|done]].
      * rewrite Hms. simpl. rewrite <- app_assoc. simpl.
        unfold answer_to. rewrite Hp. reflexivity.
      * rewrite Hds. simpl. rewrite <- app_assoc. simpl. by rewrite Hp.
    + injection Hrun as <- <-. split; [apply same_agent_refl|].
      exists [], (call :: calls). simpl. rewrite !app_nil_r.
      split; [done|]. split; [constructor|]. split; [done|]. split; [done|].
      split; [done|]. by exists call, calls.
Qed.

(** A round: an assistant object and answers to some of its calls. *)
Lemma round_block (st : state) (m : assistant_message)
    (answered unanswered : list tool_call) :
  tool_calls m = answered ++ unanswered →
  (∀ pending,
     correlated pending (AssistantObject m :: map (answer_to st) answered)
     = true) ∧
  Forall loop_message (AssistantObject m :: map (answer_to st) answered).
Proof.
  intros Hcalls. split.
  - intros pending. simpl. rewrite Hcalls. clear pending Hcalls.
    assert (Forall (λ c, tc_id c ∈ map tc_id (answered ++ unanswered)) answered)
      as Hin.
    { apply Forall_forall. intros c Hc. apply list_elem_of_fmap.
      exists c. split; [done|]. apply elem_of_app. by left. }
    revert Hin. generalize (map tc_id (answered ++ unanswered)). intros ids Hin.
    induction Hin as [|c l Hc _ IHl]; simpl; [done|].
    rewrite bool_decide_eq_true_2 by exact Hc. exact IHl.
  - constructor; [done|]. apply Forall_forall. intros x Hx.
    apply list_elem_of_fmap in Hx as (c & -> & _). done.
Qed.

(** One turn of the [while] loop, for a message that asks for tools. *)
Lemma tool_loop_round (model : list assistant_message) (m : assistant_message)
    (st : state) (res : pyres assistant_message) (st' : state) :
  tool_calls m ≠ [] →
  tool_loop model m st = (res, st') →
  ∃ st1 answered unanswered,
    tool_calls m = answered ++ unanswered ∧
    Forall parses answered ∧
    same_agent st st1 ∧
    messages st1
    = messages st ++ AssistantObject m :: map (answer_to st) answered ∧
    dispatched st1
    = dispatched st ++ map (λ call, (tc_name call, parsed call)) answered ∧
    ((unanswered ≠ [] ∧ res = Raise JSONDecodeError ∧ st' = st1) ∨
     (unanswered = [] ∧ model = [] ∧ res = Raise APIError ∧ st' = st1) ∨
     (unanswered = [] ∧
      ∃ next model', model = next :: model' ∧
                     tool_loop model' next st1 = (res, st'))).
Proof.
  intros Hne Hloop. rewrite tool_loop_unfold in Hloop.
  destruct (tool_calls m) as [|call calls] eqn:Hcalls; [done|].
  cbv zeta in Hloop.
  destruct (run_tool_calls (call :: calls) (append_message (AssistantObject m) st))
    as [res1 st1] eqn:Hrun.
  apply run_tool_calls_spec in Hrun
    as (Hsame1 & answered & unanswered & Hsplit & Hparse & Hms & Hds & Hres1).
  exists st1, answered, unanswered.
  split; [done|]. split; [done|].
  split. { destruct Hsame1 as (? & ? & ? & ? & ? & ? & ?). by repeat split. }
  split.
  { rewrite Hms. simpl. rewrite <- app_assoc. reflexivity. }
  split; [done|].
  destruct res1 as [[]|e].
  - subst unanswered. destruct model as [|next model'].
    + injection Hloop as <- <-. right. left. done.
    + right. right. split; [done|]. by exists next, model'.
  - destruct Hres1 as (-> & c & rest & -> & _).
    injection Hloop as <- <-. left. done.
Qed.

(** What the [while] loop appends is a run of rounds. *)
Lemma tool_loop_spec (model : list assistant_message) :
  ∀ m st res st',
    tool_loop model m st = (res, st') →
    same_agent st st' ∧
    (∃ new,
       messages st' = messages st ++ new ∧
       (∀ pending, correlated pending new = true) ∧
       Forall loop_message new) ∧
    (∀ final, res = Ret final → tool_calls final = []) ∧
    (∀ e, res = Raise e → e = JSONDecodeError ∨ e = APIError).
Proof.
  induction model as [|next0 model IH]; intros m st res st' Hloop.
  all: destruct (tool_calls m) as [|call calls] eqn:Hcalls;
    [ rewrite tool_loop_unfold, Hcalls in Hloop; injection Hloop as <- <-;
      split; [apply same_agent_refl|];
      split; [exists []; rewrite app_nil_r; repeat split; done|];
      split; [by intros final [= <-] | intros e [=]]
    | ].
  all: apply tool_loop_round in Hloop
         as (st1 & answered & unanswered & Hsplit & _ & Hsame & Hms & _ & Hcases);
       [|by rewrite Hcalls];
       destruct (round_block st m answered unanswered Hsplit) as [Hcorr Hloopm].
  - destruct Hcases as [(_ & -> & ->) | [(_ & _ & -> & ->) | (_ & ? & ? & [=] & _)]].
    + split; [done|]. split; [by eexists|].
      split; [intros final [=] | intros e [= <-]; by left].
    + split; [done|]. split; [by eexists|].
      split; [intros final [=] | intros e [= <-]; by right].
  - destruct Hcases
      as [(_ & -> & ->) | [(_ & [=] & _) | (_ & next & model' & [= <- <-] & Hloop)]].
    + split; [done|]. split; [by eexists|].
      split; [intros final [=] | intros e [= <-]; by left].
    + apply IH in Hloop as (Hsame2 & (new & Hms2 & Hcorr2 & Hloop2) & Hfinal & He).
      split; [by eapply same_agent_trans|]. split; [|done].
      exists ((AssistantObject m :: map (answer_to st) answered) ++ new).
      split; [by rewrite Hms2, Hms, <- app_assoc|].
      split; [|by apply Forall_app].
      intros pending. by rewrite correlated_app, Hcorr, Hcorr2.
Qed.

(** X18: whatever the model answers, and whether [chat] returns or raises,
    every tool message of the transcript still answers a call of the
    assistant message before it. *)
Theorem chat_keeps_correlation (user_message now : string)
    (model : list assistant_message) (st : state) :
  correlated [] (messages st) = true →
  correlated [] (messages (chat user_message now model st).2) = true.
Proof.
  intros Hcorr. unfold chat. destruct model as [|first model].
  { simpl. by rewrite correlated_app, Hcorr. }
  destruct (tool_loop model first (append_message (User user_message) st))
    as [res st1] eqn:Hloop.
  apply tool_loop_spec in Hloop as (_ & (new & Hms & Hnew & _) & _).
  simpl in Hms.
  destruct res as [final|e]; simpl; rewrite Hms, !correlated_app, Hcorr; simpl;
    by rewrite ?correlated_app, Hnew.
Qed.

Lemma failed_chat_frame (user_message now : string)
    (model : list assistant_message) (st st' : state) (e : exn) :
  chat user_message now model st = (Raise e, st') →
  same_agent st st' ∧
  (e = JSONDecodeError ∨ e = APIError) ∧
  ∃ new, messages st' = messages st ++ User user_message :: new ∧
         Forall loop_message new.
Proof.
  unfold chat. destruct model as [|first model].
  { intros [= <- <-]. split; [by repeat split|]. split; [by right|].
    exists []. split; [done | constructor]. }
  destruct (tool_loop model first (append_message (User user_message) st))
    as [res st1] eqn:Hloop.
  destruct res as [final|e1]; [discriminate|]. intros [= <- <-].
  apply tool_loop_spec in Hloop as (Hsame & (new & Hms & _ & Hnew) & _ & He).
  split. { destruct Hsame as (? & ? & ? & ? & ? & ? & ?). by repeat split. }
  split; [by apply He|].
  exists new. split; [|done]. rewrite Hms. simpl. by rewrite <- app_assoc.
Qed.

(** X19: a [chat] that raises because an argument text does not parse, or
    because a request to the model fails, raises before the final answer:
    it leaves the user's document, the disk, the count of writes, the
    registered tools and the system prompt as they were, and the user
    message stays in the transcript, followed only by what the tool loop
    appended.  (A [chat] can also raise from the write of the memory file,
    after the answer is appended and the conversation counted; the store
    modelled here takes every write, and that failure is not among the
    two this statement is about.) *)
Theorem failed_chat_keeps_memory (user_message now : string)
    (model : list assistant_message) (st st' : state) (e : exn) :
  chat user_message now model st = (Raise e, st') →
  e = JSONDecodeError ∨ e = APIError →
  user_memory st' = user_memory st ∧
  disk st' = disk st ∧
  saves st' = saves st ∧
  tools st' = tools st ∧
  system_prompt st' = system_prompt st ∧
  ∃ new, messages st' = messages st ++ User user_message :: new ∧
         Forall loop_message new.
Proof.
  intros Hchat _.
  destruct (failed_chat_frame _ _ _ _ _ _ Hchat)
    as ((_ & Htools & _ & Hmemory & Hprompt & Hdisk & Hsaves) & _ & Hnew).
  split; [exact Hmemory|]. split; [exact Hdisk|]. split; [exact Hsaves|].
  split; [exact Htools|]. split; [exact Hprompt|].
  exact Hnew.
Qed.

Lemma chat_return_frame (user_message now : string)
    (model : list assistant_message) (st st' : state) (text : option string) :
  chat user_message now model st = (Ret text, st') →
  user_memory st' = with_conversation now (user_memory st) ∧
  disk st' = <[_get_memory_path st := user_memory st']> (disk st) ∧
  saves st' = S (saves st) ∧
  tools st' = tools st ∧
  system_prompt st' = system_prompt st ∧
  ∃ new, messages st'
         = messages st ++ User user_message :: new ++ [ Assistant text ] ∧
         Forall loop_message new.
Proof.
  unfold chat. destruct model as [|first model]; [discriminate|].
  destruct (tool_loop model first (append_message (User user_message) st))
    as [res st1] eqn:Hloop.
  destruct res as [final|e1]; [|discriminate]. intros [= <- <-].
  apply tool_loop_spec in Hloop as (Hsame & (new & Hms & _ & Hnew) & _ & _).
  destruct Hsame as (Hu & Ht & _ & Hum & Hp & Hd & Hs). simpl in *.
  unfold _get_memory_path. simpl. rewrite Hu, Hum, Hd, Hs.
  repeat split; try done.
  exists new. split; [|done]. rewrite Hms. simpl. by rewrite <- !app_assoc.
Qed.

(** X20: a [chat] that returns has added one to [conversation_count], set
    [last_conversation] to the clock, left the preferences and the facts
    alone, and written the document to the user's file once, however many
    tools were called; the transcript has grown by the user message, what
    the tool loop appended and the final answer. *)
Theorem chat_updates_memory (user_message now : string)
    (model : list assistant_message) (st st' : state) (text : option string) :
  chat user_message now model st = (Ret text, st') →
  conversation_count (user_memory st') = conversation_count (user_memory st) + 1 ∧
  last_conversation (user_memory st') = Some now ∧
  preferences (user_memory st') = preferences (user_memory st) ∧
  facts (user_memory st') = facts (user_memory st) ∧
  saves st' = S (saves st) ∧
  disk st' !! _get_memory_path st' = Some (user_memory st') ∧
  ∃ new, messages st'
         = messages st ++ User user_message :: new ++ [ Assistant text ] ∧
         Forall loop_message new.
Proof.
  intros Hchat.
  destruct (chat_return_frame _ _ _ _ _ _ Hchat)
    as (Hmemory & Hdisk & Hsaves & _ & _ & Hnew).
  rewrite Hmemory. simpl.
  split; [reflexivity|]. split; [reflexivity|]. split; [reflexivity|].
  split; [reflexivity|]. split; [exact Hsaves|]. split; [|exact Hnew].
  rewrite Hdisk, Hmemory.
  assert (_get_memory_path st' = _get_memory_path st) as ->.
  { unfold chat in Hchat. destruct model as [|first model]; [discriminate|].
    destruct (tool_loop model first (append_message (User user_message) st))
      as [[final|e1] st1] eqn:Hloop; [|discriminate].
    injection Hchat as _ <-.
    apply tool_loop_spec in Hloop as ((Huser & _) & _).
    unfold _get_memory_path. simpl. by rewrite Huser. }
  apply lookup_insert_eq.
Qed.

Lemma run_tool_calls_all (calls : list tool_call) (st : state) :
  Forall parses calls →
  ∃ st',
    run_tool_calls calls st = (Ret (), st') ∧
    same_agent st st' ∧
    messages st' = messages st ++ map (answer_to st) calls ∧
    dispatched st'
    = dispatched st ++ map (λ call, (tc_name call, parsed call)) calls.
Proof.
  intros Hparse.
  destruct (run_tool_calls calls st) as [res st'] eqn:Hrun.
  destruct (run_tool_calls_spec calls st res st' Hrun)
    as (Hsame & answered & unanswered & -> & _ & Hms & Hds & Hres).
  destruct res as [[]|e].
  - subst unanswered. rewrite app_nil_r in *. by exists st'.
  - destruct Hres as (_ & call & rest & -> & Hnone).
    apply Forall_app in Hparse as [_ Hparse].
    inversion Hparse as [|? ? [? Hsome] _]; subst. congruence.
Qed.

Lemma tool_loop_rounds (final : assistant_message)
    (rest : list assistant_message) (rounds : list assistant_message) :
  tool_calls final = [] →
  Forall (λ m, tool_calls m ≠ [] ∧ Forall parses (tool_calls m)) rounds →
  ∀ m model st,
    m :: model = rounds ++ final :: rest →
    ∃ st',
      tool_loop model m st = (Ret final, st') ∧
      same_agent st st' ∧
      messages st' = messages st ++ flat_map (round_messages st) rounds ∧
      dispatched st' = dispatched st ++ flat_map round_dispatches rounds.
Proof.
  intros Hfinal Hrounds.
  induction Hrounds as [|r rounds [Hne Hparse] _ IH]; intros m model st Hmodel.
  - injection Hmodel as -> ->. exists st.
    rewrite tool_loop_unfold, Hfinal. simpl. rewrite !app_nil_r.
    split; [done|]. split; [apply same_agent_refl | done].
  - injection Hmodel as Hm Hmod. subst m model.
    destruct (run_tool_calls_all (tool_calls r)
                (append_message (AssistantObject r) st) Hparse)
      as (st1 & Hrun & Hsame1 & Hms1 & Hds1).
    assert (∃ next model', rounds ++ final :: rest = next :: model')
      as (next & model' & Hnext) by (destruct rounds; by eexists _, _).
    destruct (IH next model' st1 (eq_sym Hnext))
      as (st' & Hloop & Hsame2 & Hms2 & Hds2).
    exists st'. rewrite tool_loop_unfold.
    destruct (tool_calls r) as [|call calls] eqn:Hcalls; [done|].
    cbv zeta. rewrite Hrun, Hnext. split; [done|].
    assert (same_agent st st1) as Hsame.
    { destruct Hsame1 as (? & ? & ? & ? & ? & ? & ?). by repeat split. }
    split; [by eapply same_agent_trans|].
    assert (tools st1 = tools st) as Ht by apply Hsame.
    split.
    + rewrite Hms2, Hms1.
      rewrite (flat_map_ext _ _ (λ m, round_messages_tools st st1 m Ht)).
      simpl. rewrite <- !app_assoc. simpl.
      unfold round_messages at 2. rewrite Hcalls. reflexivity.
    + rewrite Hds2, Hds1. simpl. rewrite <- !app_assoc.
      unfold round_dispatches at 2. by rewrite Hcalls.
Qed.

(** X21: when the model asks for tools in any number of rounds, with any
    number of calls in each and argument texts that parse, and then gives
    a text, [chat] returns that text; the transcript grows by the user
    message, then for each round the assistant's message and one tool
    message per call, in the order of the calls and with their ids, then
    the answer; and the calls are dispatched in that same order. *)
Theorem chat_rounds (user_message now : string)
    (rounds : list assistant_message) (final : assistant_message)
    (rest : list assistant_message) (st : state) :
  Forall (λ m, tool_calls m ≠ [] ∧ Forall parses (tool_calls m)) rounds →
  tool_calls final = [] →
  ∃ st',
    chat user_message now (rounds ++ final :: rest) st
    = (Ret (content final), st') ∧
    messages st'
    = messages st ++
      User user_message :: flat_map (round_messages st) rounds
      ++ [ Assistant (content final) ] ∧
    dispatched st' = dispatched st ++ flat_map round_dispatches rounds.
Proof.
  intros Hrounds Hfinal. unfold chat.
  assert (∃ first model, rounds ++ final :: rest = first :: model)
    as (first & model & Hmodel) by (destruct rounds; by eexists _, _).
  rewrite Hmodel.
  destruct (tool_loop_rounds final rest rounds Hfinal Hrounds first model
              (append_message (User user_message) st) (eq_sym Hmodel))
    as (st1 & -> & _ & Hms & Hds).
  eexists. split; [reflexivity|]. simpl in *. split.
  - rewrite Hms, <- !app_assoc. reflexivity.
  - done.
Qed.

End Chat.
End ChatFacts.

(* ================================================================== *)
(** * Memory across operations and sessions                            *)
(* ================================================================== *)

Module MemoryFacts.
Import Agent AgentMore Spec SpecMore AgentFacts AgentMoreFacts ChatFacts.

Lemma string_prefix_app (s t : string) : String.prefix s (s +:+ t) = true.
Proof.
  induction s as [|c s IH]; simpl; [by destruct t|].
  by destruct (ascii_dec c c).
Qed.

Lemma string_prefix_refl (s : string) : String.prefix s s = true.
Proof. induction s as [|c s IH]; simpl; [done|]. by destruct (ascii_dec c c). Qed.

Lemma pref_known (um : UserMemory) (key : string) :
  known_preferences um → key ∈ preference_keys → ∃ v, pref um key = Ret v.
Proof.
  intros Hknown Hkey. apply Hknown in Hkey as [v Hv].
  exists v. unfold pref. by rewrite Hv.
Qed.

Lemma pref_with_preference_ne (um : UserMemory) (key other : string)
    (value : json) :
  other ≠ key → pref (with_preference key value um) other = pref um other.
Proof. intros Hne. unfold pref. simpl. by rewrite lookup_insert_ne. Qed.

Lemma set_preference_memory (key : string) (value : json) (st : state) :
  user_memory (set_preference key value st).2 = user_memory st ∨
  user_memory (set_preference key value st).2
  = with_preference key value (user_memory st).
Proof.
  unfold set_preference. destruct (bool_decide _); simpl; [by right | by left].
Qed.

Lemma set_preference_frame (key : string) (value : json) (st : state) :
  user_id (set_preference key value st).2 = user_id st ∧
  tools (set_preference key value st).2 = tools st ∧
  messages (set_preference key value st).2 = messages st ∧
  system_prompt (set_preference key value st).2 = system_prompt st ∧
  facts (user_memory (set_preference key value st).2) = facts (user_memory st).
Proof. unfold set_preference. by destruct (bool_decide _). Qed.

Lemma add_fact_frame (fact : string) (st : state) :
  user_id (add_fact fact st) = user_id st ∧
  tools (add_fact fact st) = tools st ∧
  messages (add_fact fact st) = messages st ∧
  system_prompt (add_fact fact st) = system_prompt st ∧
  preferences (user_memory (add_fact fact st)) = preferences (user_memory st).
Proof. unfold add_fact. by destruct (bool_decide _). Qed.

Section Sessions.
Context `{PyLib}.
Variable base_prompt : string.

(** ** The prompt and the summary *)

Lemma _build_system_prompt_returns (st : state) :
  known_preferences (user_memory st) →
  ∃ prompt, _build_system_prompt base_prompt st = Ret prompt ∧
            String.prefix base_prompt prompt = true.
Proof.
  intros Hknown.
  destruct (pref_known _ "language" Hknown) as [language Hl];
    [repeat constructor|].
  destruct (pref_known _ "home_station_name" Hknown) as [home_name Hhn];
    [repeat constructor|].
  destruct (pref_known _ "home_station" Hknown) as [home Hh];
    [repeat constructor|].
  destruct (pref_known _ "work_station_name" Hknown) as [work_name Hwn];
    [repeat constructor|].
  destruct (pref_known _ "work_station" Hknown) as [work Hw];
    [repeat constructor|].
  destruct (pref_known _ "preferred_line" Hknown) as [line Hpl];
    [repeat constructor|].
  unfold _build_system_prompt. rewrite Hl. cbn [mbind pyres_bind].
  destruct (truthy language); rewrite ?Hl; cbn [mbind pyres_bind];
    rewrite Hhn; cbn [mbind pyres_bind];
    destruct (truthy home_name); rewrite ?Hhn, ?Hh; cbn [mbind pyres_bind];
    rewrite Hwn; cbn [mbind pyres_bind];
    destruct (truthy work_name); rewrite ?Hwn, ?Hw; cbn [mbind pyres_bind];
    rewrite Hpl; cbn [mbind pyres_bind];
    destruct (truthy line); rewrite ?Hpl; cbn [mbind pyres_bind];
    destruct (facts (user_memory st)); cbn [app];
    eexists; (split; [reflexivity|]);
    first [ apply string_prefix_refl | apply string_prefix_app ].
Qed.

(** X22: on a document with the seven preference keys neither
    [_build_system_prompt] nor [get_memory_summary] raises, and the prompt
    starts with the base prompt. *)
Theorem prompt_and_summary_return (st : state) :
  known_preferences (user_memory st) →
  (∃ prompt, _build_system_prompt base_prompt st = Ret prompt ∧
             String.prefix base_prompt prompt = true) ∧
  (∃ summary, get_memory_summary st = Ret summary).
Proof.
  intros Hknown. split; [by apply _build_system_prompt_returns|].
  destruct (pref_known _ "language" Hknown) as [language Hl];
    [repeat constructor|].
  destruct (pref_known _ "home_station_name" Hknown) as [home_name Hhn];
    [repeat constructor|].
  destruct (pref_known _ "work_station_name" Hknown) as [work_name Hwn];
    [repeat constructor|].
  destruct (pref_known _ "preferred_line" Hknown) as [line Hpl];
    [repeat constructor|].
  unfold get_memory_summary. rewrite Hl, Hhn, Hwn, Hpl. by eexists.
Qed.

(** X23: a document that lacks one of the four keys the prompt reads
    unconditionally makes both functions raise [KeyError], and
    [set_preference] cannot put the key back: it refuses it and changes
    nothing. *)
Theorem missing_preference_key_raises (key : string) (value : json) (st : state) :
  key ∈ [ "language"; "home_station_name"; "work_station_name"; "preferred_line" ] →
  preferences (user_memory st) !! key = None →
  (∃ missing, _build_system_prompt base_prompt st = Raise (KeyError missing)) ∧
  (∃ missing, get_memory_summary st = Raise (KeyError missing)) ∧
  set_preference key value st = (false, st).
Proof.
  intros Hkey Hnone. split; [|split].
  - unfold _build_system_prompt, pref.
    destruct (preferences (user_memory st) !! "language") as [language|] eqn:Hl;
      [|by eexists].
    cbn [mbind pyres_bind]. destruct (truthy language); cbn [mbind pyres_bind].
    all: destruct (preferences (user_memory st) !! "home_station_name")
           as [home_name|] eqn:Hhn; [|by eexists]; cbn [mbind pyres_bind].
    all: destruct (truthy home_name); cbn [mbind pyres_bind].
    all: try (destruct (preferences (user_memory st) !! "home_station");
              [|by eexists]; cbn [mbind pyres_bind]).
    all: destruct (preferences (user_memory st) !! "work_station_name")
           as [work_name|] eqn:Hwn; [|by eexists]; cbn [mbind pyres_bind].
    all: destruct (truthy work_name); cbn [mbind pyres_bind].
    all: try (destruct (preferences (user_memory st) !! "work_station");
              [|by eexists]; cbn [mbind pyres_bind]).
    all: destruct (preferences (user_memory st) !! "preferred_line")
           as [line|] eqn:Hpl; [|by eexists]; cbn [mbind pyres_bind].
    all: exfalso;
         repeat (apply elem_of_cons in Hkey as [-> | Hkey]; [congruence|]);
         inversion Hkey.
  - unfold get_memory_summary, pref.
    destruct (preferences (user_memory st) !! "language") eqn:Hl; [|by eexists].
    destruct (preferences (user_memory st) !! "home_station_name") eqn:Hhn;
      [|by eexists].
    destruct (preferences (user_memory st) !! "work_station_name") eqn:Hwn;
      [|by eexists].
    destruct (preferences (user_memory st) !! "preferred_line") eqn:Hpl;
      [|by eexists].
    exfalso.
    repeat (apply elem_of_cons in Hkey as [-> | Hkey]; [congruence|]).
    inversion Hkey.
  - unfold set_preference. rewrite bool_decide_eq_false_2; [done|].
    rewrite Hnone. by intros [? ?].
Qed.

Lemma _build_system_prompt_ext (st st' : state) :
  facts (user_memory st') = facts (user_memory st) →
  (∀ key, key ∈ [ "language"; "home_station_name"; "home_station";
                  "work_station_name"; "work_station"; "preferred_line" ] →
          pref (user_memory st') key = pref (user_memory st) key) →
  _build_system_prompt base_prompt st' = _build_system_prompt base_prompt st.
Proof.
  intros Hfacts Hpref. unfold _build_system_prompt.
  rewrite Hfacts.
  rewrite !(Hpref "language") by (repeat constructor).
  rewrite !(Hpref "home_station_name") by (repeat constructor).
  rewrite !(Hpref "home_station") by (repeat constructor).
  rewrite !(Hpref "work_station_name") by (repeat constructor).
  rewrite !(Hpref "work_station") by (repeat constructor).
  rewrite !(Hpref "preferred_line") by (repeat constructor).
  reflexivity.
Qed.

(** X24: the prompt never shows [preferred_direction], nor does the
    summary: setting it changes neither. *)
Theorem preferred_direction_is_not_shown (value : json) (st : state) :
  _build_system_prompt base_prompt (set_preference "preferred_direction" value st).2
  = _build_system_prompt base_prompt st ∧
  get_memory_summary (set_preference "preferred_direction" value st).2
  = get_memory_summary st.
Proof.
  pose proof (set_preference_frame "preferred_direction" value st)
    as (Hu & _ & _ & _ & Hfacts).
  assert (∀ key, key ≠ "preferred_direction" →
            pref (user_memory (set_preference "preferred_direction" value st).2) key
            = pref (user_memory st) key) as Hpref.
  { intros key Hne.
    destruct (set_preference_memory "preferred_direction" value st) as [-> | ->];
      [done | by apply pref_with_preference_ne]. }
  split.
  - apply _build_system_prompt_ext; [done|]. intros key Hkey. apply Hpref.
    intros ->.
    repeat (apply elem_of_cons in Hkey as [Hkey | Hkey]; [discriminate|]).
    inversion Hkey.
  - unfold get_memory_summary.
    rewrite !Hpref by discriminate.
    destruct (set_preference_memory "preferred_direction" value st) as [-> | ->];
      [by rewrite Hu | by rewrite Hu].
Qed.

(** X25: a station id is shown only together with its name: while
    [home_station_name] is empty, setting [home_station] leaves the prompt
    as it is. *)
Theorem station_id_needs_its_name (value name : json) (st : state) :
  preferences (user_memory st) !! "home_station_name" = Some name →
  truthy name = false →
  _build_system_prompt base_prompt (set_preference "home_station" value st).2
  = _build_system_prompt base_prompt st.
Proof.
  intros Hname Hfalsy.
  pose proof (set_preference_frame "home_station" value st)
    as (Hu & _ & _ & _ & Hfacts).
  assert (∀ key, key ≠ "home_station" →
            pref (user_memory (set_preference "home_station" value st).2) key
            = pref (user_memory st) key) as Hpref.
  { intros key Hne.
    destruct (set_preference_memory "home_station" value st) as [-> | ->];
      [done | by apply pref_with_preference_ne]. }
  unfold _build_system_prompt. rewrite Hfacts.
  rewrite !(Hpref "language") by discriminate.
  rewrite !(Hpref "home_station_name") by discriminate.
  rewrite !(Hpref "work_station_name") by discriminate.
  rewrite !(Hpref "work_station") by discriminate.
  rewrite !(Hpref "preferred_line") by discriminate.
  assert (pref (user_memory st) "home_station_name" = Ret name) as Hhn
    by (unfold pref; by rewrite Hname).
  rewrite !Hhn. cbn [mbind pyres_bind]. rewrite Hfalsy. reflexivity.
Qed.

(** ** Construction *)

(** X26: constructing an agent for a user without a file gives the base
    prompt as the only message, a document with the seven keys all null,
    no fact and no tool, and writes nothing. *)
Theorem init_new_user (user : string) (now : string)
    (files : gmap string UserMemory) :
  view_user_memory user files = None →
  ∃ st,
    __init__ base_prompt user None now files = Ret st ∧
    messages st = [ System base_prompt ] ∧
    system_prompt st = base_prompt ∧
    known_preferences (user_memory st) ∧
    (∀ key, key ∈ preference_keys → get_preference key st = Some JNull) ∧
    facts (user_memory st) = [] ∧
    conversation_count (user_memory st) = 0 ∧
    tools st = ∅ ∧
    disk st = files ∧ saves st = 0%nat.
Proof.
  unfold view_user_memory. intros Hnone.
  unfold __init__, _load_memory, _get_memory_path. simpl.
  change (os_path_join MEMORY_DIR (user +:+ ".json")) with (memory_path user).
  rewrite Hnone. simpl.
  eexists. split; [reflexivity|]. simpl.
  split; [done|]. split; [done|].
  split; [intros key; apply default_preferences_known|].
  split; [|done].
  intros key Hkey. unfold get_preference. simpl.
  repeat (apply elem_of_cons in Hkey as [-> | Hkey]; [reflexivity|]).
  inversion Hkey.
Qed.

(** X27: a new session for the same user, built on the files a session
    left in step with its memory, starts from that session's document,
    with a transcript of the system message alone and no tool. *)
Theorem init_reads_back (now : string) (st : state) :
  on_disk st →
  known_preferences (user_memory st) →
  ∃ st',
    __init__ base_prompt (user_id st) None now (disk st) = Ret st' ∧
    user_memory st' = user_memory st ∧
    messages st' = [ System (system_prompt st') ] ∧
    tools st' = ∅.
Proof.
  intros Hdisk Hknown. unfold __init__, _load_memory. simpl.
  change (_get_memory_path _) with (_get_memory_path st).
  rewrite Hdisk.
  match goal with
  | |- context [_build_system_prompt base_prompt ?s] =>
      destruct (_build_system_prompt_returns s) as (prompt & -> & _);
        [exact Hknown|]
  end.
  simpl. by eexists.
Qed.

(** ** What reaches the disk *)

Lemma on_disk_write (st : state) : on_disk (_save_memory st).
Proof. unfold on_disk, _save_memory, _get_memory_path. simpl. apply lookup_insert_eq. Qed.

(** X28: each write puts the document in memory into the user's file, so
    that [_load_memory] reads it back: after an accepted
    [set_preference], a new [add_fact] and a [chat] that returns; and
    once file and memory agree, no operation makes them differ. *)
Theorem writes_reach_disk :
  (∀ key value st st',
     set_preference key value st = (true, st') →
     ∀ now, _load_memory now st' = user_memory st') ∧
  (∀ fact st,
     fact ∉ facts (user_memory st) →
     ∀ now, _load_memory now (add_fact fact st) = user_memory (add_fact fact st)) ∧
  (∀ user_message now model st text st',
     chat user_message now model st = (Ret text, st') →
     ∀ now', _load_memory now' st' = user_memory st') ∧
  (∀ st, on_disk st →
     (∀ key value, on_disk (set_preference key value st).2) ∧
     (∀ fact, on_disk (add_fact fact st)) ∧
     (∀ user_message now model, on_disk (chat user_message now model st).2)).
Proof.
  assert (∀ st now, on_disk st → _load_memory now st = user_memory st) as Hload.
  { intros st now Hd. unfold _load_memory. by rewrite Hd. }
  assert (∀ user_message now model st text st',
            chat user_message now model st = (Ret text, st') → on_disk st')
    as Hchat.
  { intros user_message now model st text st' Hc.
    destruct (chat_return_frame _ _ _ _ _ _ Hc) as (Hum & Hd & _).
    unfold chat in Hc. destruct model as [|first model]; [discriminate|].
    destruct (tool_loop _ _ _) as [[final|e] st1]; [|discriminate].
    injection Hc as _ <-. apply on_disk_write. }
  split; [|split; [|split]].
  - intros key value st st' Hset now. apply Hload.
    unfold set_preference in Hset. destruct (bool_decide _); [|discriminate].
    injection Hset as <-. apply on_disk_write.
  - intros fact st Hnew now. apply Hload. rewrite add_fact_absent by done.
    apply on_disk_write.
  - intros user_message now model st text st' Hc now'. by eapply Hload, Hchat.
  - intros st Hd. split; [|split].
    + intros key value. unfold set_preference.
      destruct (bool_decide _); simpl; [apply on_disk_write | done].
    + intros fact. unfold add_fact.
      destruct (negb _); [apply on_disk_write | done].
    + intros user_message now model.
      destruct (chat user_message now model st) as [[text|e] st'] eqn:Hc; simpl.
      * by eapply Hchat.
      * destruct (failed_chat_frame _ _ _ _ _ _ Hc)
          as ((Hu & _ & _ & Hum & _ & Hdk & _) & _).
        unfold on_disk, _get_memory_path in *. by rewrite Hu, Hum, Hdk.
Qed.

(** X29: between user ids of plain characters, for which different ids
    are different files, no operation of one user's agent touches another
    user's file. *)
Theorem other_users_untouched (other : string) (st : state) :
  plain_user_id (user_id st) = true →
  plain_user_id other = true →
  other ≠ user_id st →
  (∀ key value,
     view_user_memory other (disk (set_preference key value st).2)
     = view_user_memory other (disk st)) ∧
  (∀ fact,
     view_user_memory other (disk (add_fact fact st))
     = view_user_memory other (disk st)) ∧
  (∀ user_message now model,
     view_user_memory other (disk (chat user_message now model st).2)
     = view_user_memory other (disk st)).
Proof.
  intros _ _ Hother.
  assert (memory_path other ≠ _get_memory_path st) as Hpath.
  { rewrite _get_memory_path_user. intros Heq. by apply memory_path_inj in Heq. }
  assert (∀ st0, user_id st0 = user_id st →
            view_user_memory other (disk (_save_memory st0))
            = view_user_memory other (disk st0)) as Hsave.
  { intros st0 Hu. unfold view_user_memory, _save_memory. simpl.
    rewrite lookup_insert_ne; [done|].
    unfold _get_memory_path. rewrite Hu. by intros Heq. }
  split; [|split].
  - intros key value. unfold set_preference.
    destruct (bool_decide _); cbn [snd]; [|done].
    exact (Hsave (with_user_memory _ st) eq_refl).
  - intros fact. unfold add_fact.
    destruct (negb _); [|done].
    exact (Hsave (with_user_memory _ st) eq_refl).
  - intros user_message now model.
    destruct (chat user_message now model st) as [[text|e] st'] eqn:Hc; simpl.
    + destruct (chat_return_frame _ _ _ _ _ _ Hc) as (_ & -> & _).
      unfold view_user_memory. by rewrite lookup_insert_ne.
    + destruct (failed_chat_frame _ _ _ _ _ _ Hc)
        as ((_ & _ & _ & _ & _ & -> & _) & _). done.
Qed.

(** X30: the system prompt is fixed at construction: no operation changes
    it, so that [clear_history] after any of them restores the first
    system message, without the preference or fact set since; the
    document is left alone by [clear_history]. *)
Theorem clear_history_restores_first_prompt (st : state) :
  (∀ key value,
     messages (clear_history (set_preference key value st).2)
     = [ System (system_prompt st) ] ∧
     user_memory (clear_history (set_preference key value st).2)
     = user_memory (set_preference key value st).2) ∧
  (∀ fact,
     messages (clear_history (add_fact fact st)) = [ System (system_prompt st) ] ∧
     user_memory (clear_history (add_fact fact st))
     = user_memory (add_fact fact st)) ∧
  (∀ user_message now model,
     messages (clear_history (chat user_message now model st).2)
     = [ System (system_prompt st) ] ∧
     user_memory (clear_history (chat user_message now model st).2)
     = user_memory (chat user_message now model st).2).
Proof.
  split; [|split].
  - intros key value.
    destruct (set_preference_frame key value st) as (_ & _ & _ & Hp & _).
    unfold clear_history. simpl. by rewrite Hp.
  - intros fact. destruct (add_fact_frame fact st) as (_ & _ & _ & Hp & _).
    unfold clear_history. simpl. by rewrite Hp.
  - intros user_message now model. unfold clear_history. simpl. split; [|done].
    destruct (chat user_message now model st) as [[text|e] st'] eqn:Hc; simpl.
    + destruct (chat_return_frame _ _ _ _ _ _ Hc) as (_ & _ & _ & _ & -> & _).
      done.
    + destruct (failed_chat_frame _ _ _ _ _ _ Hc)
        as ((_ & _ & _ & _ & -> & _) & _). done.
Qed.

End Sessions.
End MemoryFacts.

(* ================================================================== *)
(** * The further theorems at the scenarios                            *)
(* ================================================================== *)

Module MoreExamples.
Import Mbta Agent AgentMore Spec SpecMore Scenario ScenarioMore.
Import MbtaFacts AgentFacts MbtaMore AgentMoreFacts ChatFacts MemoryFacts.

Lemma direction_name_fallback_witness : direction_name "Red" 2 = "方向2".
Proof. apply (direction_name_fallback "Red" 2); discriminate. Defined.

Lemma harvard_get_predictions :
  get_predictions "place-harsq" (Some "Red") None harvard_response harvard_now
  = Ret harvard_predictions.
Proof. vm_compute. reflexivity. Defined.

Lemma fixture_rounds_as_exact : rounds_as_exact.
Proof. intros d _. reflexivity. Defined.

Lemma predictions_minutes_bounds_witness :
  ∃ preds,
    dict_get "predictions" harvard_predictions
    = Some (JList (map prediction_dict preds)) ∧
    map minutes preds = [3; 7] ∧
    Forall (λ p,
      ∃ wait,
        (wait = 200000000 ∨ wait = 420000000) ∧
        0 ≤ minutes p ∧
        2 * Z.abs (60000000 * minutes p - wait) ≤ 60000000) preds.
Proof.
  destruct (predictions_minutes_bounds "place-harsq" (Some "Red") None
              harvard_response harvard_now harvard_predictions
              fixture_rounds_as_exact harvard_get_predictions eq_refl)
    as (preds & Hp & Hall).
  exists preds. split; [exact Hp|]. split.
  - clear -Hp. vm_compute in Hp.
    destruct preds as [|p1 [|p2 [|p3 rest]]]; try discriminate Hp.
    injection Hp as _ _ Hm1 _ _ _ _ Hm2 _ _.
    simpl. by rewrite Hm1, Hm2.
  - eapply Forall_impl; [exact Hall|]. simpl.
    intros p (pred & s & dt & offset & Hin & [_ Hs] & Hdt & Hoff & _ & Hbound).
    apply list_elem_of_In in Hin. simpl in Hin.
    destruct Hin as [<- | [<- | []]]; simpl in Hs.
    + destruct Hs as [[= <-] | [_ [=]]].
      vm_compute in Hdt. injection Hdt as <-.
      simpl in Hoff. injection Hoff as <-.
      exists 420000000. split; [by right|]. apply Hbound. reflexivity.
    + destruct Hs as [[=] | [_ [= <-]]].
      vm_compute in Hdt. injection Hdt as <-.
      simpl in Hoff. injection Hoff as <-.
      exists 200000000. split; [by left|]. apply Hbound. reflexivity.
Defined.

Lemma naive_chosen_time : chosen_time naive_record "2024-01-15T10:07:00".
Proof. split; [discriminate | left; reflexivity]. Defined.

Lemma bad_timestamp_fails_the_call_witness :
  ∃ e,
    get_predictions "place-harsq" (Some "Red") None naive_response harvard_now
    = Raise e ∧
    get_next_train "place-harsq" (Some "Red") None naive_response harvard_now
    = Raise e.
Proof.
  destruct (bad_timestamp_fails_the_call "place-harsq" (Some "Red") None
              naive_response harvard_now naive_record "2024-01-15T10:07:00")
    as (e & _ & Hp & Hn & _).
  - reflexivity.
  - left.
  - exact naive_chosen_time.
  - right. eexists. split; vm_compute; reflexivity.
  - exists e. split; assumption.
Defined.

Lemma wrappers_return_witness :
  ∃ r', get_next_train "place-harsq" (Some "Red") None
          harvard_response harvard_now = Ret r'.
Proof.
  exact (proj1 (wrappers_return "place-harsq" (Some "Red") None
                  harvard_response harvard_now harvard_predictions
                  harvard_get_predictions)).
Defined.

Lemma get_both_directions_has_data_witness :
  ∃ r' (has_data : bool),
    get_both_directions "place-harsq" "Red" harvard_response harvard_now = Ret r' ∧
    dict_get "has_data" r' = Some (JBool has_data).
Proof.
  destruct (get_both_directions_has_data "place-harsq" "Red"
              harvard_response harvard_now harvard_predictions
              harvard_get_predictions eq_refl)
    as (preds & r' & has_data & directions & message & _ & Hr' & Hd & _).
  exists r', has_data. split; assumption.
Defined.

Lemma next_train_among_directions_witness :
  ∃ next both,
    get_next_train "place-harsq" (Some "Red") None harvard_response harvard_now
    = Ret next ∧
    get_both_directions "place-harsq" "Red" harvard_response harvard_now
    = Ret both.
Proof.
  destruct (next_train_among_directions "place-harsq" "Red"
              harvard_response harvard_now harvard_predictions
              harvard_get_predictions eq_refl)
    as (next & both & directions & d & m & t & Hn & Hb & _).
  - discriminate.
  - exists next, both. split; assumption.
Defined.

Lemma get_alerts_has_alerts_witness :
  ∃ (has_alerts : bool),
    dict_get "has_alerts" (get_alerts (Some "Red") alerts_response)
    = Some (JBool has_alerts).
Proof.
  destruct (get_alerts_has_alerts (Some "Red") alerts_response eq_refl)
    as (has_alerts & alerts & message & Hh & _).
  exists has_alerts. exact Hh.
Defined.

Lemma get_alerts_sorted_capped_witness :
  dict_get "alert_count" (get_alerts (Some "Red") alerts_response)
  = Some (JInt 3).
Proof.
  destruct (get_alerts_sorted_capped (Some "Red") alerts_response eq_refl)
    as (alerts & Hcount & _).
  - discriminate.
  - exact Hcount.
Defined.

Lemma get_alerts_keeps_order_witness :
  dict_get "alerts" (get_alerts (Some "Red") level_response)
  = Some (JList (map alert_dict (take 10 (map alert_of (data_of level_response))))).
Proof.
  apply (get_alerts_keeps_order (Some "Red") level_response 7).
  - reflexivity.
  - discriminate.
  - repeat constructor.
Defined.

Lemma get_stops_complete_witness :
  ∃ stops,
    dict_get "stops" (get_stops "Red" park_response)
    = Some (JList (map stop_dict stops)) ∧
    (length stops ≤ 2)%nat.
Proof.
  destruct (get_stops_complete "Red" park_response eq_refl)
    as (stops & Hs & _ & Hlen).
  exists stops. split; [exact Hs | exact Hlen].
Defined.

Lemma search_filters_stops_witness :
  ∃ stops,
    dict_get "stops" (get_stops "Red" park_response)
    = Some (JList (map stop_dict stops)) ∧
    dict_get "results" (search_stops "street" park_response)
    = Some (JList (map stop_dict
        (List.filter
           (λ s, is_substring (str_strip (str_lower "street")) (str_lower (s_name s)))
           stops))).
Proof.
  destruct (search_filters_stops "street" "Red" park_response eq_refl)
    as (stops & Hs & Hr & _).
  exists stops. split; [exact Hs | exact Hr].
Defined.

Lemma blank_query_matches_all_witness :
  ∃ stops,
    dict_get "stops" (get_stops "Red" park_response)
    = Some (JList (map stop_dict stops)) ∧
    dict_get "results" (search_stops "  " park_response)
    = Some (JList (map stop_dict stops)).
Proof.
  apply (blank_query_matches_all "  " "Red" park_response); reflexivity.
Defined.

Lemma _call_tool_registered_witness :
  _call_tool "get_routes" (JList []) alice
  = json_dumps true
      (JDict [ ("error",
                JStr "tools.mbta.get_routes() argument after ** must be a mapping, not list") ]).
Proof.
  apply (proj1 (_call_tool_registered "get_routes" routes_tool (JList []) alice
                  eq_refl)).
  discriminate.
Defined.

Lemma chat_keeps_correlation_witness :
  correlated []
    (messages (chat "Which lines are running?" "2024-01-15T10:05:00"
                 two_calls alice).2) = true.
Proof.
  apply (chat_keeps_correlation "Which lines are running?"
           "2024-01-15T10:05:00" two_calls alice).
  reflexivity.
Defined.

Lemma cut_short_chat :
  chat "Which lines are running?" "2024-01-15T10:05:00" cut_short alice
  = (Raise JSONDecodeError,
     append_message (AssistantObject (call_routes "call_1" "{"))
       (append_message (User "Which lines are running?") alice)).
Proof. reflexivity. Defined.

Lemma failed_chat_keeps_memory_witness :
  user_memory
    (append_message (AssistantObject (call_routes "call_1" "{"))
       (append_message (User "Which lines are running?") alice))
  = user_memory alice ∧
  saves
    (append_message (AssistantObject (call_routes "call_1" "{"))
       (append_message (User "Which lines are running?") alice))
  = 0%nat.
Proof.
  destruct (failed_chat_keeps_memory _ _ _ _ _ _ cut_short_chat
              (or_introl eq_refl)) as (Hmemory & _ & Hsaves & _).
  split; [exact Hmemory | exact Hsaves].
Defined.

Lemma two_calls_chat :
  (chat "Which lines are running?" "2024-01-15T10:05:00" two_calls alice).1
  = Ret (Some "Seven lines are running.").
Proof. vm_compute. reflexivity. Defined.

Lemma chat_updates_memory_witness :
  conversation_count
    (user_memory (chat "Which lines are running?" "2024-01-15T10:05:00"
                    two_calls alice).2) = 1.
Proof.
  destruct (chat "Which lines are running?" "2024-01-15T10:05:00" two_calls alice)
    as [res st'] eqn:Hchat.
  pose proof two_calls_chat as Hres. rewrite Hchat in Hres. simpl in Hres.
  subst res.
  destruct (chat_updates_memory _ _ _ _ _ _ Hchat) as (Hcount & _).
  simpl. rewrite Hcount. reflexivity.
Defined.

Lemma two_calls_parse :
  Forall (λ m, tool_calls m ≠ [] ∧ Forall parses (tool_calls m))
    [ call_routes "call_1" "{}"; call_routes "call_2" "{}" ].
Proof.
  repeat constructor; try discriminate; by eexists.
Defined.

Lemma chat_rounds_witness :
  ∃ st',
    chat "Which lines are running?" "2024-01-15T10:05:00" two_calls alice
    = (Ret (Some "Seven lines are running."), st') ∧
    dispatched st' = [ ("get_routes", JDict []); ("get_routes", JDict []) ].
Proof.
  destruct (chat_rounds "Which lines are running?" "2024-01-15T10:05:00"
              [ call_routes "call_1" "{}"; call_routes "call_2" "{}" ]
              answer [] alice two_calls_parse eq_refl)
    as (st' & Hchat & _ & Hd).
  exists st'. split; [exact Hchat | exact Hd].
Defined.

Lemma prompt_and_summary_return_witness :
  ∃ prompt, _build_system_prompt base alice = Ret prompt.
Proof.
  destruct (prompt_and_summary_return base alice Examples.alice_known_preferences)
    as [(prompt & Hp & _) _].
  exists prompt. exact Hp.
Defined.

Lemma missing_preference_key_raises_witness :
  (∃ missing, _build_system_prompt base edited = Raise (KeyError missing)) ∧
  set_preference "language" (JStr "zh") edited = (false, edited).
Proof.
  destruct (missing_preference_key_raises base "language" (JStr "zh") edited)
    as (Hp & _ & Hs).
  - left.
  - reflexivity.
  - split; [exact Hp | exact Hs].
Defined.

Lemma station_id_needs_its_name_witness :
  _build_system_prompt base (set_preference "home_station" (JStr "place-harsq") alice).2
  = _build_system_prompt base alice.
Proof.
  apply (station_id_needs_its_name base (JStr "place-harsq") JNull alice);
    reflexivity.
Defined.

Lemma init_new_user_witness :
  ∃ st, __init__ base "alice" None "2024-01-15T10:00:00" ∅ = Ret st ∧
        messages st = [ System base ] ∧ saves st = 0%nat.
Proof.
  destruct (init_new_user base "alice" "2024-01-15T10:00:00" ∅
              (lookup_empty _))
    as (st & Hi & Hm & _ & _ & _ & _ & _ & _ & _ & Hs).
  exists st. split; [exact Hi|]. split; [exact Hm | exact Hs].
Defined.

Lemma alice_zh_on_disk : on_disk alice_zh.
Proof. apply on_disk_write. Defined.

Lemma alice_zh_known : known_preferences (user_memory alice_zh).
Proof. apply set_preference_keeps_known, Examples.alice_known_preferences. Defined.

Lemma init_reads_back_witness :
  ∃ st',
    __init__ base "alice" None "2024-01-16T09:00:00" (disk alice_zh) = Ret st' ∧
    user_memory st' = user_memory alice_zh.
Proof.
  destruct (init_reads_back base "2024-01-16T09:00:00" alice_zh
              alice_zh_on_disk alice_zh_known) as (st' & Hi & Hum & _).
  exists st'. split; [exact Hi | exact Hum].
Defined.

Lemma other_users_untouched_witness :
  view_user_memory "bob"
    (disk (set_preference "language" (JStr "zh") alice_beside_bob).2)
  = Some bob_document ∧
  view_user_memory "bob" (disk (add_fact "Lives in Cambridge" alice_beside_bob))
  = Some bob_document.
Proof.
  destruct (other_users_untouched "bob" alice_beside_bob eq_refl eq_refl
              ltac:(discriminate)) as (Hset & Hadd & _).
  rewrite Hset, Hadd. split; exact (lookup_insert_eq _ _ _).
Defined.

Lemma delete_user_memory_spec_witness :
  (delete_user_memory "alice" (disk alice_and_bob)).1 = true ∧
  view_user_memory "alice" (delete_user_memory "alice" (disk alice_and_bob)).2
  = None ∧
  view_user_memory "bob" (delete_user_memory "alice" (disk alice_and_bob)).2
  = Some bob_document.
Proof.
  destruct (delete_user_memory_spec "alice" (disk alice_and_bob))
    as (Hanswer & Hgone & _ & Hother).
  split; [|split; [exact Hgone|]].
  - rewrite Hanswer. vm_compute. reflexivity.
  - rewrite (Hother "bob" eq_refl eq_refl ltac:(discriminate)).
    vm_compute. reflexivity.
Defined.

End MoreExamples.
